(** * package.py: the Magisk font-module packager

    A shallow embedding of [src/package.py].  The first part models the
    element trees of [xml.etree.ElementTree] and the splice performed by
    [ModulePackager.__parse_font_xml]; the second part models the calls the
    script makes to the Python library (temporary directories, copies, file
    writes, archive creation) in a state-and-exception monad that records
    every call, and on top of it [package_module] and [main]. *)

From Stdlib Require Import ZArith Ascii String List Lia.
From stdpp Require Import base tactics option list list_numbers strings pretty.

Local Open Scope string_scope.
Local Open Scope Z_scope.

(** ** Python strings, dictionaries and ranges *)

(** A [dict] with string keys, in insertion order.  Python keeps the keys
    distinct; the operations below are the ones the script uses. *)
Definition dict : Type := list (string * string).

(** [k in d] *)
Definition dict_contains (k : string) (d : dict) : bool :=
  existsb (fun kv => String.eqb (fst kv) k) d.

(** [d[k]], [None] standing for [KeyError] *)
Fixpoint dict_get (k : string) (d : dict) : option string :=
  match d with
  | [] => None
  | (k', v) :: d' => if String.eqb k' k then Some v else dict_get k d'
  end.

(** [del d[k]] (the script only deletes a key it has found) *)
Fixpoint dict_del (k : string) (d : dict) : dict :=
  match d with
  | [] => []
  | (k', v) :: d' =>
      if String.eqb k' k then dict_del k d' else (k', v) :: dict_del k d'
  end.

(** [range(start, stop, step)] for a positive [step] *)
Definition range (start stop step : Z) : list Z :=
  (fun k => start + k * step) <$> seqZ 0 ((stop - start + step - 1) `div` step).

(** [f"{i}"] for an [int] *)
Definition str_of_int (i : Z) : string := pretty i.

(** ** Element trees *)

(** An [xml.etree.ElementTree.Element]: tag, attribute dictionary, text,
    tail and the sequence of children. *)
#[warnings="-register-all"]
Inductive element : Type :=
  mkElement {
    tag : string;
    attrib : dict;
    text : option string;
    tail : option string;
    children : list element
  }.

(** [ElementTree.Element(tag, attrib)] *)
Definition Element (tag : string) (attrib : dict) : element :=
  mkElement tag attrib None None [].

(** [parent.append(child)] *)
Definition append (parent child : element) : element :=
  mkElement (tag parent) (attrib parent) (text parent) (tail parent)
            (children parent ++ [child]).

(** [e.text = s] *)
Definition set_text (e : element) (s : string) : element :=
  mkElement (tag e) (attrib e) (Some s) (tail e) (children e).

(** [del e.attrib[k]] *)
Definition del_attrib (e : element) (k : string) : element :=
  mkElement (tag e) (dict_del k (attrib e)) (text e) (tail e) (children e).

(** ** The splice of [__parse_font_xml] (lines 30-76) *)

Definition LF : string := String "010" EmptyString.

(** A [font] element as [fromstring] builds it from one line of the literal:
    two attributes, the file name as text, the white space up to the next
    tag as tail. *)
Definition empty_font (weight style file tl : string) : element :=
  mkElement "font" [("weight", weight); ("style", style)] (Some file) (Some tl) [].

(** The tree [ElementTree.fromstring] returns for the literal of lines
    36-51.  White space before and after the root element is dropped by the
    parser; white space between tags is kept as text and tails. *)
Definition sans_serif_family : element :=
  let ind := LF ++ "        " in
  mkElement "family" [("name", "sans-serif")] (Some ind) None
    [ empty_font "100" "normal" "EmptyFont-Thin.ttf" ind;
      empty_font "100" "italic" "EmptyFont-ThinItalic.ttf" ind;
      empty_font "300" "normal" "EmptyFont-Light.ttf" ind;
      empty_font "300" "italic" "EmptyFont-LightItalic.ttf" ind;
      empty_font "400" "normal" "EmptyFont-Regular.ttf" ind;
      empty_font "400" "italic" "EmptyFont-Italic.ttf" ind;
      empty_font "500" "normal" "EmptyFont-Medium.ttf" ind;
      empty_font "500" "italic" "EmptyFont-MediumItalic.ttf" ind;
      empty_font "900" "normal" "EmptyFont-Black.ttf" ind;
      empty_font "900" "italic" "EmptyFont-BlackItalic.ttf" ind;
      empty_font "700" "normal" "EmptyFont-Bold.ttf" ind;
      empty_font "700" "italic" "EmptyFont-BoldItalic.ttf" (LF ++ "    ") ].

Section Splice.

(** [self.__font_file_name] *)
Variable font_file_name : string.

(** The body of the two [for i in range(100, 1000, 100)] loops (lines
    58-60 and 71-73): one more [font] child. *)
Definition add_font (family : element) (i : Z) : element :=
  let font := Element "font" [("weight", str_of_int i); ("style", "normal")] in
  let font := set_text font font_file_name in
  append family font.

(** Lines 55-60. *)
Definition custom_family : element :=
  fold_left add_font (range 100 1000 100) (Element "family" []).

(** Lines 69-73. *)
Definition family_with_lang : element :=
  fold_left add_font (range 100 1000 100) (Element "family" [("lang", "zh-Hans")]).

(** The first [if] of the loop body (lines 66-67). *)
Definition strip_name (child : element) : element :=
  if dict_contains "name" (attrib child)
     && bool_decide (dict_get "name" (attrib child) = Some "sans-serif")
  then del_attrib child "name"
  else child.

(** The body of [for child in root] (lines 65-76); the state is the tree
    under construction and the flag [family_with_lang_inserted]. *)
Definition splice_child (st : element * bool) (child : element) : element * bool :=
  let '(familyset, family_with_lang_inserted) := st in
  let '(familyset, family_with_lang_inserted, child) :=
    if String.eqb (tag child) "family" then
      let child := strip_name child in
      if dict_contains "lang" (attrib child) && negb family_with_lang_inserted
      then (append familyset family_with_lang, true, child)
      else (familyset, family_with_lang_inserted, child)
    else (familyset, family_with_lang_inserted, child) in
  (append familyset child, family_with_lang_inserted).

(** Lines 30-76: the tree handed to the serialiser, from the root of the
    parsed base document. *)
Definition build_familyset (root : element) : element :=
  let familyset := Element "familyset" [("version", "23")] in
  let familyset := append familyset sans_serif_family in
  let familyset := append familyset custom_family in
  let family_with_lang_inserted := false in
  fst (fold_left splice_child (children root) (familyset, family_with_lang_inserted)).

End Splice.

(** ** [os.path] on POSIX *)

(** [(p[:i], p[i:])] for [i = p.rfind("/") + 1] *)
Fixpoint rsplit_sep (p : string) : string * string :=
  match p with
  | EmptyString => (EmptyString, EmptyString)
  | String c r =>
      let '(h, t) := rsplit_sep r in
      if Ascii.eqb c "/" then (String c h, t)
      else match h with
           | EmptyString => (EmptyString, String c t)
           | _ => (String c h, t)
           end
  end.

(** [s.rstrip("/")] *)
Fixpoint rstrip_sep (s : string) : string :=
  match s with
  | EmptyString => EmptyString
  | String c r =>
      match rstrip_sep r with
      | EmptyString => if Ascii.eqb c "/" then EmptyString else String c EmptyString
      | r' => String c r'
      end
  end.

(** [os.path.basename] *)
Definition basename (p : string) : string := snd (rsplit_sep p).

(** [os.path.dirname]: the head loses its trailing slashes unless it
    consists of slashes only. *)
Definition dirname (p : string) : string :=
  let head := fst (rsplit_sep p) in
  match rstrip_sep head with
  | EmptyString => head
  | head' => head'
  end.

Definition startswith_sep (s : string) : bool :=
  match s with String c _ => Ascii.eqb c "/" | EmptyString => false end.

Fixpoint endswith_sep (s : string) : bool :=
  match s with
  | EmptyString => false
  | String c EmptyString => Ascii.eqb c "/"
  | String _ r => endswith_sep r
  end.

(** [os.path.join(a, *p)] *)
Definition join (a : string) (p : list string) : string :=
  fold_left (fun path b =>
               if startswith_sep b then b
               else if String.eqb path "" || endswith_sep path then path ++ b
               else path ++ "/" ++ b) p a.

(** [p.rfind(c)], [-1] when [c] does not occur *)
Fixpoint rfind (c : ascii) (p : string) : Z :=
  match p with
  | EmptyString => -1
  | String c' r =>
      let i := rfind c r in
      if 0 <=? i then i + 1 else if Ascii.eqb c' c then 0 else -1
  end.

(** [p[i:j]] for [0 <= i <= j] *)
Definition slice (p : string) (i j : Z) : string :=
  substring (Z.to_nat i) (Z.to_nat (j - i)) p.

Fixpoint all_dots (s : string) : bool :=
  match s with
  | EmptyString => true
  | String c r => Ascii.eqb c "." && all_dots r
  end.

(** [os.path.splitext]: the extension starts at the last dot of the last
    component, unless only dots precede it there. *)
Definition splitext (p : string) : string * string :=
  let sepIndex := rfind "/" p in
  let dotIndex := rfind "." p in
  let n := Z.of_nat (String.length p) in
  if (sepIndex <? dotIndex) && negb (all_dots (slice p (sepIndex + 1) dotIndex))
  then (slice p 0 dotIndex, slice p dotIndex n)
  else (p, EmptyString).

(** ** The Python library as an interface *)

Inductive exn : Type :=
| ParseError
| OSError (what : string)
| SystemExit (code : Z).

Inductive result (A : Type) : Type :=
| Return (a : A)
| Raise (e : exn).
Arguments Return {A} a.
Arguments Raise {A} e.

(** What the script asks of the interpreter and its standard library.  The
    calls that touch the machine take the [world] and give it back; a file
    object is named by the path it was opened on. *)
Class Library : Type := {
  world : Type;
  Document : Type;
  os_path_exists : string -> world -> bool;
  os_getlogin : world -> result string * world;
  tempfile_TemporaryDirectory : world -> result string * world;
  tempfile_cleanup : string -> world -> result unit * world;
  tempfile_gettempdir : world -> result string * world;
  shutil_copytree : string -> string -> world -> result string * world;
  shutil_copy : string -> string -> world -> result string * world;
  shutil_make_archive : string -> string -> string -> world -> result string * world;
  builtins_open : string -> string -> world -> result unit * world;
  file_write : string -> string -> world -> result Z * world;
  file_close : string -> world -> result unit * world;
  ElementTree_parse : string -> world -> result element * world;
  ElementTree_tostring : element -> string -> string;
  minidom_parseString : string -> result Document;
  minidom_toprettyxml : Document -> string -> string -> string;
  str_splitlines : string -> list string;
  str_strip : string -> string
}.

(** The calls that are recorded, with their arguments. *)
Inductive call : Type :=
| print (s : string)
| getlogin
| TemporaryDirectory
| cleanup (name : string)
| gettempdir
| copytree (src dst : string)
| copy (src dst : string)
| make_archive (base_name format root_dir : string)
| open (file mode : string)
| write (file data : string)
| close (file : string)
| parse (source : string).

Record event : Type := mkEvent { ev_call : call; ev_raised : option exn }.

Definition raised {A} (r : result A) : option exn :=
  match r with Return _ => None | Raise e => Some e end.

Definition returned (c : call) : event := mkEvent c None.

(** ** Programs: state, exceptions and a log of calls *)

Section Program.

Context {Lib : Library}.

Record state : Type := mkState { st_world : world; st_trace : list event }.

Definition M (A : Type) : Type := state -> result A * state.

Definition ret {A} (a : A) : M A := fun s => (Return a, s).

Definition raise {A} (e : exn) : M A := fun s => (Raise e, s).

Definition bind {A B} (m : M A) (k : A -> M B) : M B :=
  fun s => match m s with
           | (Return a, s') => k a s'
           | (Raise e, s') => (Raise e, s')
           end.

(** A library call: run it on the world and log it with its outcome. *)
Definition perform {A} (c : call) (op : world -> result A * world) : M A :=
  fun s => let '(r, w) := op (st_world s) in
           (r, mkState w (st_trace s ++ [mkEvent c (raised r)])).

(** A library function that only computes. *)
Definition lift {A} (r : result A) : M A := fun s => (r, s).

(** [with enter as x: body]: the exit runs on every way out of the body;
    an exception of the exit replaces the outcome of the body. *)
Definition with_ {A B} (enter : M A) (exit : A -> M unit) (body : A -> M B) : M B :=
  bind enter (fun x s =>
    let '(r, s') := body x s in
    match exit x s' with
    | (Return _, s'') => (r, s'')
    | (Raise e, s'') => (Raise e, s'')
    end).

(** [for x in l: body] *)
Fixpoint for_ {A} (l : list A) (body : A -> M unit) : M unit :=
  match l with
  | [] => ret tt
  | x :: l' => bind (body x) (fun _ => for_ l' body)
  end.

End Program.

Declare Scope py_scope.
Delimit Scope py_scope with py.
Notation "x <- m ;; k" := (bind m (fun x => k))
  (at level 100, m at next level, right associativity) : py_scope.
Notation "m ;;; k" := (bind m (fun _ => k))
  (at level 100, right associativity) : py_scope.

(** ** [class ModulePackager] *)

Record ModulePackager : Type := mkModulePackager {
  template_path : string;
  font_path : string;
  font_file_name : string;
  base_font_xml_path : string;
  font_name : string
}.

(** [ModulePackager.__init__] *)
Definition ModulePackager_init
    (template_path font_path base_font_xml_path font_name : string) : ModulePackager :=
  mkModulePackager template_path font_path (basename font_path)
                   base_font_xml_path font_name.

(** [os.linesep] *)
Definition linesep : string := LF.

(** Python's truth value of a [str] *)
Definition truthy (s : string) : bool := negb (String.eqb s "").

(** The parsed command line of [main]: [--font-config] and [--font-name] are
    optional ([None] when absent), [--font] is required. *)
Record Namespace : Type := mkNamespace {
  font_config : option string;
  font : string;
  ns_font_name : option string
}.

Definition truthy_opt (o : option string) : bool :=
  match o with Some s => truthy s | None => false end.

Section Script.

Context {Lib : Library}.
Local Open Scope py_scope.

(** [open(file, mode)]: the file object it returns is named by [file]. *)
Definition open_ (file mode : string) : M string :=
  _ <- perform (open file mode) (builtins_open file mode) ;;
  ret file.

(** [ModulePackager.__parse_font_xml] *)
Definition parse_font_xml (self : ModulePackager) : M string :=
  root <- perform (parse (base_font_xml_path self))
                  (ElementTree_parse (base_font_xml_path self)) ;;
  let familyset := build_familyset (font_file_name self) root in
  let node_content := ElementTree_tostring familyset "utf-8" in
  temp_xml <- lift (minidom_parseString node_content) ;;
  let pretty_xml := minidom_toprettyxml temp_xml (String "009" EmptyString) "utf-8" in
  let dom_string :=
    String.concat linesep
      (List.filter (fun s => truthy (str_strip s)) (str_splitlines pretty_xml)) in
  ret dom_string.

(** [ModulePackager.package_module] *)
Definition package_module (self : ModulePackager) (kwargs : dict) : M string :=
  with_ (perform TemporaryDirectory tempfile_TemporaryDirectory)
        (fun temp => perform (cleanup temp) (tempfile_cleanup temp))
    (fun temp =>
       let cwd := join temp [basename (template_path self)] in
       _ <- perform (copytree (template_path self) cwd)
                    (shutil_copytree (template_path self) cwd) ;;
       let fonts_dir := join cwd ["system"; "fonts"] in
       _ <- perform (copy (font_path self) fonts_dir)
                    (shutil_copy (font_path self) fonts_dir) ;;
       let module_prop_file := join cwd ["module.prop"] in
       _ <- with_ (open_ module_prop_file "w+")
                  (fun module_prop => perform (close module_prop) (file_close module_prop))
              (fun module_prop =>
                 for_ kwargs (fun '(k, v) =>
                   let line := k ++ "=" ++ v ++ LF in
                   _ <- perform (write module_prop line) (file_write module_prop line) ;;
                   ret tt)) ;;
       let font_xml_path := join cwd ["system"; "etc"; "fonts.xml"] in
       _ <- with_ (open_ font_xml_path "w+")
                  (fun font_xml => perform (close font_xml) (file_close font_xml))
              (fun font_xml =>
                 data <- parse_font_xml self ;;
                 perform (write font_xml data) (file_write font_xml data)) ;;
       tmp <- perform gettempdir tempfile_gettempdir ;;
       let dest_zip_name := join tmp [font_name self] in
       dest_zip_file <- perform (make_archive dest_zip_name "zip" cwd)
                                (shutil_make_archive dest_zip_name "zip" cwd) ;;
       ret dest_zip_file).

(** [os.path.exists(p)]: a question to the world, which it leaves alone. *)
Definition exists_ (p : string) : M bool :=
  fun s => (Return (os_path_exists p (st_world s)), s).

(** [print(msg)]: only adds to the log. *)
Definition print_ (msg : string) : M unit :=
  perform (print msg) (fun w => (Return tt, w)).

(** [exit(code)] *)
Definition exit {A} (code : Z) : M A := raise (SystemExit code).

(** [main], from the parsed arguments on; [__file__] is the path of the
    script. *)
Definition main (__file__ : string) (config : Namespace) : M unit :=
  let cwd := dirname __file__ in
  let font_xml_path := join cwd ["template"; "system"; "etc"; "fonts.xml"] in
  let font_xml_path :=
    if truthy_opt (font_config config)
    then default font_xml_path (font_config config)
    else font_xml_path in
  found <- exists_ font_xml_path ;;
  _ <- (if negb found then print_ "Font config file not exists!" else ret tt) ;;
  missing <- (if negb (truthy (font config)) then ret true
              else found <- exists_ (font config) ;; ret (negb found)) ;;
  if (missing : bool) then
    _ <- print_ "No font file set or font file not exists!" ;;
    exit (-1)
  else
    let template_path := join cwd ["template"] in
    let font_name := ns_font_name config in
    let font_name :=
      if negb (truthy_opt font_name)
      then fst (splitext (basename (font config)))
      else default EmptyString font_name in
    login <- perform getlogin os_getlogin ;;
    let module_props : dict :=
      [ ("id", font_name);
        ("name", font_name);
        ("version", "1.0");
        ("versionCode", "1");
        ("author", login);
        ("description", "Replace default font with " ++ font_name) ] in
    let module_packager :=
      ModulePackager_init template_path (font config) font_xml_path font_name in
    zip_file <- package_module module_packager module_props ;;
    _ <- perform (copy zip_file cwd) (shutil_copy zip_file cwd) ;;
    ret tt.

End Script.

(** ** An in-memory library

    A small implementation of [Library] over a file system held in memory,
    on which the script can be run.  A file holding well-formed XML is
    listed in [documents] with the tree it denotes; serialisation is a
    plain rendering of the tree and pretty-printing leaves it alone. *)

Module Mem.

Record fs : Type := mkFs {
  files : dict;
  documents : list (string * element);
  dirs : list string;
  fresh : nat
}.

Definition is_file (p : string) (w : fs) : bool := dict_contains p (files w).
Definition is_dir (p : string) (w : fs) : bool := bool_decide (p ∈ dirs w).
Definition exists_path (p : string) (w : fs) : bool := is_file p w || is_dir p w.

(** the part of [p] below directory [d], when [p] lies in it *)
Definition below (d p : string) : option string :=
  if String.prefix (d ++ "/") p
  then Some (substring (String.length d) (String.length p - String.length d) p)
  else None.

Definition inside (d p : string) : bool :=
  String.eqb d p || bool_decide (is_Some (below d p)).

Definition put (p content : string) (w : fs) : fs :=
  mkFs ((p, content) :: dict_del p (files w)) (documents w) (dirs w) (fresh w).

Definition no_such (p : string) : exn := OSError ("No such file or directory: " ++ p).

Definition TemporaryDirectory (w : fs) : result string * fs :=
  if is_dir "/tmp" w then
    let name := "/tmp/tmp" ++ pretty (fresh w) in
    (Return name, mkFs (files w) (documents w) (dirs w ++ [name])%list (S (fresh w)))
  else (Raise (no_such "/tmp"), w).

Definition cleanup (name : string) (w : fs) : result unit * fs :=
  (Return tt,
   mkFs (List.filter (fun kv => negb (inside name (fst kv))) (files w))
        (List.filter (fun kv => negb (inside name (fst kv))) (documents w))
        (List.filter (fun d => negb (inside name d)) (dirs w))
        (fresh w)).

Definition gettempdir (w : fs) : result string * fs :=
  if is_dir "/tmp" w then (Return "/tmp", w) else (Raise (no_such "/tmp"), w).

(** the entries of [l] below [src], moved below [dst] *)
Definition moved {A} (src dst : string) (l : list (string * A)) : list (string * A) :=
  omap (fun kv => (fun rest => (dst ++ rest, snd kv)) <$> below src (fst kv)) l.

Definition copytree (src dst : string) (w : fs) : result string * fs :=
  if negb (is_dir src w) then (Raise (no_such src), w)
  else if exists_path dst w then (Raise (OSError ("File exists: " ++ dst)), w)
  else (Return dst,
        mkFs (files w ++ moved src dst (files w))%list
             (documents w ++ moved src dst (documents w))%list
             (dirs w ++ dst :: omap (fun d => String.append dst <$> below src d) (dirs w))%list
             (fresh w)).

Definition copy (src dst : string) (w : fs) : result string * fs :=
  match dict_get src (files w) with
  | None =>
      (Raise (if is_dir src w then OSError ("Is a directory: " ++ src) else no_such src), w)
  | Some content =>
      let target := if is_dir dst w then join dst [basename src] else dst in
      if is_dir (dirname target) w then (Return target, put target content w)
      else (Raise (no_such target), w)
  end.

Definition open (file mode : string) (w : fs) : result unit * fs :=
  if is_dir (dirname file) w && negb (is_dir file w)
  then (Return tt, put file "" w)
  else (Raise (no_such file), w).

Definition write (file data : string) (w : fs) : result Z * fs :=
  match dict_get file (files w) with
  | Some content => (Return (Z.of_nat (String.length data)), put file (content ++ data) w)
  | None => (Raise (no_such file), w)
  end.

Definition close (file : string) (w : fs) : result unit * fs := (Return tt, w).

Definition parse (source : string) (w : fs) : result element * fs :=
  if is_file source w then
    match List.find (fun kv => String.eqb (fst kv) source) (documents w) with
    | Some kv => (Return (snd kv), w)
    | None => (Raise ParseError, w)
    end
  else (Raise (no_such source), w).

(** the directories to go through to reach [p], [p] included *)
Fixpoint ancestors (fuel : nat) (p : string) : list string :=
  match fuel with
  | O => []
  | S fuel =>
      if String.eqb p "" || String.eqb p "/" then []
      else (ancestors fuel (dirname p) ++ [p])%list
  end.

(** [os.makedirs(p)] where nothing exists at [p] *)
Definition makedirs (p : string) (w : fs) : fs :=
  mkFs (files w) (documents w)
       (dirs w ++ List.filter (fun d => negb (is_dir d w)) (ancestors (String.length p) p))%list
       (fresh w).

(** [shutil.make_archive]: the directory of the archive is created when it
    does not exist. *)
Definition make_archive (base_name format root_dir : string) (w : fs) : result string * fs :=
  if negb (is_dir root_dir w) then (Raise (no_such root_dir), w)
  else
    let archive_dir := dirname base_name in
    if is_file archive_dir w then (Raise (OSError ("Not a directory: " ++ archive_dir)), w)
    else
      let name := base_name ++ "." ++ format in
      (Return name, put name ("archive of " ++ root_dir) (makedirs archive_dir w)).

Definition quote : string := String "034" EmptyString.

Fixpoint tostring (e : element) : string :=
  "<" ++ tag e
      ++ String.concat "" (List.map (fun kv => " " ++ fst kv ++ "=" ++ quote ++ snd kv ++ quote)
                                    (attrib e))
      ++ ">" ++ default "" (text e)
      ++ String.concat "" (List.map tostring (children e))
      ++ "</" ++ tag e ++ ">" ++ default "" (tail e).

(** [s.split(c)] *)
Fixpoint split (c : ascii) (s : string) : list string :=
  match s with
  | EmptyString => [EmptyString]
  | String c' r =>
      if Ascii.eqb c' c then EmptyString :: split c r
      else match split c r with
           | [] => [String c' EmptyString]
           | x :: l => String c' x :: l
           end
  end.

Definition blank (c : ascii) : bool := Ascii.eqb c " " || Ascii.eqb c "009".

Fixpoint lstrip (s : string) : string :=
  match s with
  | String c r => if blank c then lstrip r else s
  | EmptyString => EmptyString
  end.

Fixpoint rstrip (s : string) : string :=
  match s with
  | EmptyString => EmptyString
  | String c r =>
      match rstrip r with
      | EmptyString => if blank c then EmptyString else String c EmptyString
      | r' => String c r'
      end
  end.

Definition library : Library := {|
  world := fs;
  Document := string;
  os_path_exists := exists_path;
  os_getlogin := fun w => (Return "root", w);
  tempfile_TemporaryDirectory := TemporaryDirectory;
  tempfile_cleanup := cleanup;
  tempfile_gettempdir := gettempdir;
  shutil_copytree := copytree;
  shutil_copy := copy;
  shutil_make_archive := make_archive;
  builtins_open := open;
  file_write := write;
  file_close := close;
  ElementTree_parse := parse;
  ElementTree_tostring := fun e _ => tostring e;
  minidom_parseString := Return;
  minidom_toprettyxml := fun d _ _ => d;
  str_splitlines := split "010";
  str_strip := fun s => rstrip (lstrip s)
|}.

(** The same library on a machine without a controlling terminal, where
    [os.getlogin] raises. *)
Definition library_no_tty : Library := {|
  world := fs;
  Document := string;
  os_path_exists := exists_path;
  os_getlogin := fun w => (Raise (OSError "Inappropriate ioctl for device"), w);
  tempfile_TemporaryDirectory := TemporaryDirectory;
  tempfile_cleanup := cleanup;
  tempfile_gettempdir := gettempdir;
  shutil_copytree := copytree;
  shutil_copy := copy;
  shutil_make_archive := make_archive;
  builtins_open := open;
  file_write := write;
  file_close := close;
  ElementTree_parse := parse;
  ElementTree_tostring := fun e _ => tostring e;
  minidom_parseString := Return;
  minidom_toprettyxml := fun d _ _ => d;
  str_splitlines := split "010";
  str_strip := fun s => rstrip (lstrip s)
|}.

(** A machine with the script and its template in [/opt/mod], a font in
    [/home/u], and a base document [/home/u/base.xml] denoting [doc] (or
    malformed when [doc] is [None]). *)
Definition machine (doc : option element) : fs :=
  mkFs [ ("/opt/mod/package.py", "#!/bin/python3");
         ("/opt/mod/template/module.prop", "id=template");
         ("/opt/mod/template/system/etc/fonts.xml", "<familyset/>");
         ("/home/u/MyFont.ttf", "glyphs");
         ("/home/u/base.xml", "<familyset>") ]
       (("/opt/mod/template/system/etc/fonts.xml", Element "familyset" [("version", "23")])
          :: match doc with
             | Some d => [("/home/u/base.xml", d)]
             | None => []
             end)
       [ "/tmp"; "/home/u"; "/opt/mod"; "/opt/mod/template";
         "/opt/mod/template/system"; "/opt/mod/template/system/etc";
         "/opt/mod/template/system/fonts" ]
       0.

End Mem.

(** ** Vocabulary of the properties *)

Definition is_family (e : element) : bool := String.eqb (tag e) "family".

Definition has_attr (k : string) (e : element) : bool := dict_contains k (attrib e).

(** a [family] element that carries a [lang] attribute *)
Definition lang_family (e : element) : bool := is_family e && has_attr "lang" e.

(** the number of [family] elements in a sequence of children *)
Definition count_families (l : list element) : nat := length (List.filter is_family l).

(** what the loop appends for a child of the base document *)
Definition passed (child : element) : element :=
  if is_family child then strip_name child else child.

(** the children the loop appends, from a given value of the flag on *)
Fixpoint spliced (font_file_name : string) (inserted : bool) (l : list element)
  : list element :=
  match l with
  | [] => []
  | c :: l' =>
      if lang_family c && negb inserted
      then family_with_lang font_file_name :: passed c :: spliced font_file_name true l'
      else passed c :: spliced font_file_name inserted l'
  end.

(** a [font] face with a weight, the style [normal] and a file name *)
Definition face (file : string) (weight : string) : element :=
  mkElement "font" [("weight", weight); ("style", "normal")] (Some file) None [].

Definition weights_100_900 : list string :=
  ["100"; "200"; "300"; "400"; "500"; "600"; "700"; "800"; "900"].

Definition weight (e : element) : option string := dict_get "weight" (attrib e).
Definition style (e : element) : option string := dict_get "style" (attrib e).

(** the faces of a family with a given weight and style *)
Definition faces_with (w s : string) (family : element) : list element :=
  List.filter (fun f => bool_decide (weight f = Some w) && bool_decide (style f = Some s))
              (children family).

Definition StyleSuffix (s : option string) : string :=
  if bool_decide (s = Some "italic") then "Italic" else "".

(** [EmptyFont-<WeightName><StyleSuffix>.ttf] *)
Definition placeholder (WeightName StyleSuffix : string) : string :=
  "EmptyFont-" ++ WeightName ++ StyleSuffix ++ ".ttf".

(** the names the literal gives to the weights of the fallback family *)
Definition weight_names : dict :=
  [ ("100", "Thin"); ("300", "Light"); ("400", "Regular");
    ("500", "Medium"); ("700", "Bold"); ("900", "Black") ].

(** the name of a face: [Regular] is left out before [Italic] *)
Definition face_name (WeightName StyleSuffix : string) : string :=
  if String.eqb WeightName "Regular" && negb (String.eqb StyleSuffix "")
  then StyleSuffix
  else WeightName ++ StyleSuffix.

Definition is_make_archive (c : call) : bool :=
  match c with make_archive _ _ _ => true | _ => false end.

Definition is_print (c : call) : bool :=
  match c with print _ => true | _ => false end.

(** one line of [module.prop] *)
Definition prop_line (kv : string * string) : string := fst kv ++ "=" ++ snd kv ++ LF.

(** The calls of a staging that got as far as the archive, in the staging
    directory [temp], with [data] the text of the new [fonts.xml]: template
    copy, font copy, [module.prop], [fonts.xml]. *)
Definition staging (self : ModulePackager) (kwargs : dict) (temp data : string)
  : list call :=
  let cwd := join temp [basename (template_path self)] in
  ([ TemporaryDirectory;
     copytree (template_path self) cwd;
     copy (font_path self) (join cwd ["system"; "fonts"]);
     open (join cwd ["module.prop"]) "w+" ]
  ++ ((fun kv => write (join cwd ["module.prop"]) (prop_line kv)) <$> kwargs)
  ++ [ close (join cwd ["module.prop"]);
       open (join cwd ["system"; "etc"; "fonts.xml"]) "w+";
       parse (base_font_xml_path self);
       write (join cwd ["system"; "etc"; "fonts.xml"]) data;
       close (join cwd ["system"; "etc"; "fonts.xml"]);
       gettempdir ])%list.

Definition no_archive (t : list event) : bool :=
  forallb (fun ev => negb (is_make_archive (ev_call ev))) t.

(** the log of a run that starts from world [w] with an empty log *)
Definition trace_of {Lib : Library} {A} (m : M A) (w : world) : list event :=
  st_trace (snd (m (mkState w []))).

Definition outcome_of {Lib : Library} {A} (m : M A) (w : world) : result A :=
  fst (m (mkState w [])).

(** ** Some base documents *)

Definition doc (l : list element) : element :=
  mkElement "familyset" [("version", "23")] None None l.

(** [<family name="sans-serif"><font weight="400" style="normal">Roboto-Regular.ttf</font></family>] *)
Definition family_sans : element :=
  mkElement "family" [("name", "sans-serif")] None None
    [mkElement "font" [("weight", "400"); ("style", "normal")] (Some "Roboto-Regular.ttf") None []].

(** [<family lang="ja"><font weight="400" style="normal">NotoSansCJK-Regular.ttc</font></family>] *)
Definition family_ja : element :=
  mkElement "family" [("lang", "ja")] None None
    [mkElement "font" [("weight", "400"); ("style", "normal")] (Some "NotoSansCJK-Regular.ttc") None []].

(** [<family name="sans-serif" lang="und-Arab" variant="elegant"/>] *)
Definition family_both : element :=
  mkElement "family" [("name", "sans-serif"); ("lang", "und-Arab"); ("variant", "elegant")]
            None None [].

(** [<alias name="arial" to="sans-serif" lang="en"/>]: not a [family] *)
Definition alias_lang : element :=
  mkElement "alias" [("name", "arial"); ("to", "sans-serif"); ("lang", "en")] None None [].

(** [s] holds a path separator *)
Fixpoint contains_sep (s : string) : bool :=
  match s with
  | EmptyString => false
  | String c r => Ascii.eqb c "/" || contains_sep r
  end.

(** ** The logs a run can leave

    What [package_module] and [main] can log, and with which outcome,
    whatever the library does: one case for each call that can raise. *)

(** a [family] whose [name] is [sans-serif]: the children the loop changes *)
Definition named_sans_serif (e : element) : bool :=
  is_family e && bool_decide (dict_get "name" (attrib e) = Some "sans-serif").

(** the outcome of a [with] block whose exit call ended as [o] *)
Definition after {A} (o : option exn) (r : result A) : result A :=
  match o with Some e => Raise e | None => r end.

(** the writes of the lines of [l] to [file], all returned *)
Definition prop_writes (file : string) (l : dict) : list event :=
  returned <$> ((fun kv => write file (prop_line kv)) <$> l).

Definition is_dir_call (c : call) : bool :=
  match c with TemporaryDirectory | cleanup _ => true | _ => false end.

(** the calls of the [module.prop] block on [file] *)
Definition on_file (file : string) (c : call) : Prop :=
  match c with
  | open f _ | write f _ | close f => f = file
  | _ => False
  end.

(** the calls of the last two statements of the staging block *)
Definition is_archive_call (c : call) : bool :=
  match c with gettempdir | make_archive _ _ _ => true | _ => false end.

(** the calls made between the creation and the removal of the staging
    directory *)
Definition is_staging_call (c : call) : bool :=
  match c with
  | copytree _ _ | copy _ _ | open _ _ | write _ _ | close _ | parse _
  | gettempdir | make_archive _ _ _ => true
  | _ => false
  end.

(** the calls that leave a [with] block *)
Definition is_exit_call (c : call) : bool :=
  match c with close _ | cleanup _ => true | _ => false end.

(** What a call of [package_module] may be, for the staging directory
    [temp]: the arguments each kind of call can have. *)
Definition staged_call (self : ModulePackager) (kwargs : dict) (temp : string)
           (c : call) : Prop :=
  let cwd := join temp [basename (template_path self)] in
  let module_prop_file := join cwd ["module.prop"] in
  let font_xml_path := join cwd ["system"; "etc"; "fonts.xml"] in
  match c with
  | TemporaryDirectory => True
  | cleanup name => name = temp
  | copytree src dst => src = template_path self /\ dst = cwd
  | copy src dst => src = font_path self /\ dst = join cwd ["system"; "fonts"]
  | open file mode => (file = module_prop_file \/ file = font_xml_path) /\ mode = "w+"
  | write file data =>
      (file = module_prop_file /\ exists kv, kv ∈ kwargs /\ data = prop_line kv)
      \/ file = font_xml_path
  | close file => file = module_prop_file \/ file = font_xml_path
  | parse source => source = base_font_xml_path self
  | gettempdir => True
  | make_archive base_name format root_dir =>
      (exists tmp, base_name = join tmp [font_name self])
      /\ format = "zip" /\ root_dir = cwd
  | print _ | getlogin => False
  end.

(** a log in which every call returned, or in which the first call that
    raised is followed by exit calls only and the outcome is an exception *)
Definition fails_fast {A} (r : result A) (t : list event) : Prop :=
  Forall (fun ev => ev_raised ev = None) t
  \/ (exists a ev post e,
        t = (a ++ ev :: post)%list
        /\ Forall (fun x => ev_raised x = None) a
        /\ Forall (fun x => is_exit_call (ev_call x) = true) post
        /\ r = Raise e).

(** the paths of [main] *)
Definition main_font_xml_path (__file__ : string) (config : Namespace) : string :=
  if truthy_opt (font_config config)
  then default EmptyString (font_config config)
  else join (dirname __file__) ["template"; "system"; "etc"; "fonts.xml"].

Definition main_font_name (config : Namespace) : string :=
  if truthy_opt (ns_font_name config)
  then default EmptyString (ns_font_name config)
  else fst (splitext (basename (font config))).

Definition main_module_props (font_name login : string) : dict :=
  [ ("id", font_name);
    ("name", font_name);
    ("version", "1.0");
    ("versionCode", "1");
    ("author", login);
    ("description", "Replace default font with " ++ font_name) ].

Definition main_packager (__file__ : string) (config : Namespace) : ModulePackager :=
  ModulePackager_init (join (dirname __file__) ["template"]) (font config)
                      (main_font_xml_path __file__ config) (main_font_name config).

Inductive module_prop_log (file : string) (kwargs : dict)
  : result unit -> list event -> Prop :=
| mp_open_raised (e : exn) :
    module_prop_log file kwargs (Raise e) [mkEvent (open file "w+") (Some e)]
| mp_write_raised (done rest : dict) (kv : string * string) (e : exn) (o : option exn) :
    kwargs = (done ++ kv :: rest)%list ->
    module_prop_log file kwargs (after o (Raise e))
      (returned (open file "w+")
         :: prop_writes file done
         ++ [mkEvent (write file (prop_line kv)) (Some e); mkEvent (close file) o])%list
| mp_written (o : option exn) :
    module_prop_log file kwargs (after o (Return tt))
      (returned (open file "w+") :: prop_writes file kwargs ++ [mkEvent (close file) o])%list.

Section Logs.

Context {Lib : Library}.

(** Lines 77-80: the text of a tree, or the exception of
    [minidom.parseString]. *)
Definition dom_string_of (familyset : element) : result string :=
  match minidom_parseString (ElementTree_tostring familyset "utf-8") with
  | Return temp_xml =>
      Return (String.concat linesep
                (List.filter (fun s => truthy (str_strip s))
                   (str_splitlines
                      (minidom_toprettyxml temp_xml (String "009" EmptyString) "utf-8"))))
  | Raise e => Raise e
  end.

Inductive fonts_xml_log (self : ModulePackager) (file : string)
  : result Z -> list event -> Prop :=
| fx_open_raised (e : exn) :
    fonts_xml_log self file (Raise e) [mkEvent (open file "w+") (Some e)]
| fx_parse_raised (e : exn) (o : option exn) :
    fonts_xml_log self file (after o (Raise e))
      [ returned (open file "w+");
        mkEvent (parse (base_font_xml_path self)) (Some e);
        mkEvent (close file) o ]
| fx_dom_raised (root : element) (e : exn) (o : option exn) :
    dom_string_of (build_familyset (font_file_name self) root) = Raise e ->
    fonts_xml_log self file (after o (Raise e))
      [ returned (open file "w+");
        returned (parse (base_font_xml_path self));
        mkEvent (close file) o ]
| fx_write (root : element) (data : string) (r : result Z) (o : option exn) :
    dom_string_of (build_familyset (font_file_name self) root) = Return data ->
    fonts_xml_log self file (after o r)
      [ returned (open file "w+");
        returned (parse (base_font_xml_path self));
        mkEvent (write file data) (raised r);
        mkEvent (close file) o ].

Inductive archive_log (self : ModulePackager) (temp : string)
  : result string -> list event -> Prop :=
| ar_tmp_raised (e : exn) :
    archive_log self temp (Raise e) [mkEvent gettempdir (Some e)]
| ar_made (tmp : string) (r : result string) :
    archive_log self temp r
      [ returned gettempdir;
        mkEvent (make_archive (join tmp [font_name self]) "zip"
                              (join temp [basename (template_path self)]))
                (raised r) ].

(** the body of the [with TemporaryDirectory() as temp] block *)
Inductive body_log (self : ModulePackager) (kwargs : dict) (temp : string)
  : result string -> list event -> Prop :=
| b_copytree_raised (e : exn) :
    body_log self kwargs temp (Raise e)
      [mkEvent (copytree (template_path self)
                         (join temp [basename (template_path self)])) (Some e)]
| b_copy_raised (e : exn) :
    body_log self kwargs temp (Raise e)
      [ returned (copytree (template_path self)
                           (join temp [basename (template_path self)]));
        mkEvent (copy (font_path self)
                      (join (join temp [basename (template_path self)])
                            ["system"; "fonts"])) (Some e) ]
| b_module_prop_raised (e : exn) (t : list event) :
    module_prop_log (join (join temp [basename (template_path self)]) ["module.prop"])
                    kwargs (Raise e) t ->
    body_log self kwargs temp (Raise e)
      (returned (copytree (template_path self)
                          (join temp [basename (template_path self)]))
         :: returned (copy (font_path self)
                           (join (join temp [basename (template_path self)])
                                 ["system"; "fonts"]))
         :: t)
| b_fonts_xml_raised (e : exn) (t1 t2 : list event) :
    module_prop_log (join (join temp [basename (template_path self)]) ["module.prop"])
                    kwargs (Return tt) t1 ->
    fonts_xml_log self (join (join temp [basename (template_path self)])
                             ["system"; "etc"; "fonts.xml"]) (Raise e) t2 ->
    body_log self kwargs temp (Raise e)
      (returned (copytree (template_path self)
                          (join temp [basename (template_path self)]))
         :: returned (copy (font_path self)
                           (join (join temp [basename (template_path self)])
                                 ["system"; "fonts"]))
         :: t1 ++ t2)%list
| b_archive (n : Z) (r : result string) (t1 t2 t3 : list event) :
    module_prop_log (join (join temp [basename (template_path self)]) ["module.prop"])
                    kwargs (Return tt) t1 ->
    fonts_xml_log self (join (join temp [basename (template_path self)])
                             ["system"; "etc"; "fonts.xml"]) (Return n) t2 ->
    archive_log self temp r t3 ->
    body_log self kwargs temp r
      (returned (copytree (template_path self)
                          (join temp [basename (template_path self)]))
         :: returned (copy (font_path self)
                           (join (join temp [basename (template_path self)])
                                 ["system"; "fonts"]))
         :: t1 ++ t2 ++ t3)%list.

Inductive package_module_log (self : ModulePackager) (kwargs : dict)
  : result string -> list event -> Prop :=
| pm_tmp_raised (e : exn) :
    package_module_log self kwargs (Raise e) [mkEvent TemporaryDirectory (Some e)]
| pm_staged (temp : string) (rb : result string) (tb : list event) (o : option exn) :
    body_log self kwargs temp rb tb ->
    package_module_log self kwargs (after o rb)
      (returned TemporaryDirectory :: tb ++ [mkEvent (cleanup temp) o])%list.

(** The world after the lines of [kwargs] have been written to [file] one
    after the other, when every write returns. *)
Fixpoint write_lines (file : string) (kwargs : dict) (w : world) : option world :=
  match kwargs with
  | [] => Some w
  | kv :: rest =>
      match file_write file (prop_line kv) w with
      | (Return _, w') => write_lines file rest w'
      | (Raise _, _) => None
      end
  end.

(** A run of [package_module] from the world [w] to the world [w'] in which
    every call returned: each call is made in the world the call before it
    left.  [temp] is the staging directory that [TemporaryDirectory]
    returned, [root] the tree that the parse of the base document returned,
    [data] the text of the tree built from it, [tmp] the directory that
    [gettempdir] returned and [zip_file] the path that [make_archive]
    returned. *)
Definition package_module_returned (self : ModulePackager) (kwargs : dict) (w : world)
           (temp : string) (root : element) (data tmp zip_file : string) (w' : world)
  : Prop :=
  let cwd := join temp [basename (template_path self)] in
  let module_prop_file := join cwd ["module.prop"] in
  let font_xml_path := join cwd ["system"; "etc"; "fonts.xml"] in
  exists (w1 w2 w3 w4 w5 w6 w7 w8 w9 w10 w11 w12 : world) (d1 d2 : string) (n : Z),
    tempfile_TemporaryDirectory w = (Return temp, w1)
    /\ shutil_copytree (template_path self) cwd w1 = (Return d1, w2)
    /\ shutil_copy (font_path self) (join cwd ["system"; "fonts"]) w2 = (Return d2, w3)
    /\ builtins_open module_prop_file "w+" w3 = (Return tt, w4)
    /\ write_lines module_prop_file kwargs w4 = Some w5
    /\ file_close module_prop_file w5 = (Return tt, w6)
    /\ builtins_open font_xml_path "w+" w6 = (Return tt, w7)
    /\ ElementTree_parse (base_font_xml_path self) w7 = (Return root, w8)
    /\ dom_string_of (build_familyset (font_file_name self) root) = Return data
    /\ file_write font_xml_path data w8 = (Return n, w9)
    /\ file_close font_xml_path w9 = (Return tt, w10)
    /\ tempfile_gettempdir w10 = (Return tmp, w11)
    /\ shutil_make_archive (join tmp [font_name self]) "zip" cwd w11
       = (Return zip_file, w12)
    /\ tempfile_cleanup temp w12 = (Return tt, w').

(** what [main] prints about the font configuration file *)
Definition main_warning (__file__ : string) (config : Namespace) (w : world)
  : list event :=
  if os_path_exists (main_font_xml_path __file__ config) w
  then []
  else [returned (print "Font config file not exists!")].

(** the font path is set and names an existing file *)
Definition font_found (config : Namespace) (w : world) : bool :=
  truthy (font config) && os_path_exists (font config) w.

Inductive main_log (__file__ : string) (config : Namespace) (w : world)
  : result unit -> list event -> Prop :=
| m_no_font :
    font_found config w = false ->
    main_log __file__ config w (Raise (SystemExit (-1)))
      (main_warning __file__ config w
         ++ [returned (print "No font file set or font file not exists!")])%list
| m_login_raised (e : exn) :
    font_found config w = true ->
    main_log __file__ config w (Raise e)
      (main_warning __file__ config w ++ [mkEvent getlogin (Some e)])%list
| m_package_raised (login : string) (e : exn) (t : list event) :
    font_found config w = true ->
    package_module_log (main_packager __file__ config)
                       (main_module_props (main_font_name config) login) (Raise e) t ->
    main_log __file__ config w (Raise e)
      (main_warning __file__ config w ++ returned getlogin :: t)%list
| m_packaged (login zip_file : string) (t : list event) (o : option exn) :
    font_found config w = true ->
    package_module_log (main_packager __file__ config)
                       (main_module_props (main_font_name config) login)
                       (Return zip_file) t ->
    main_log __file__ config w (after o (Return tt))
      (main_warning __file__ config w
         ++ returned getlogin :: t
         ++ [mkEvent (copy zip_file (dirname __file__)) o])%list.

End Logs.

(** ** Properties of the splice *)

Local Open Scope list_scope.

Lemma dict_contains_del_ne (k k' : string) (d : dict) :
  k ≠ k' -> dict_contains k (dict_del k' d) = dict_contains k d.
Proof.
  intros Hne. induction d as [|[k0 v] d IH]; [reflexivity|].
  simpl. destruct (String.eqb_spec k0 k') as [->|Hk0]; simpl.
  - rewrite IH. destruct (String.eqb_spec k' k); [congruence|reflexivity].
  - now rewrite IH.
Qed.

Lemma dict_contains_del_eq (k : string) (d : dict) :
  dict_contains k (dict_del k d) = false.
Proof.
  induction d as [|[k0 v] d IH]; [reflexivity|].
  simpl. destruct (String.eqb_spec k0 k) as [->|Hk0]; simpl; [exact IH|].
  rewrite IH. destruct (String.eqb_spec k0 k); [congruence|reflexivity].
Qed.

Lemma dict_get_del_ne (k k' : string) (d : dict) :
  k ≠ k' -> dict_get k (dict_del k' d) = dict_get k d.
Proof.
  intros Hne. induction d as [|[k0 v] d IH]; [reflexivity|].
  simpl. destruct (String.eqb_spec k0 k') as [->|Hk0]; simpl.
  - rewrite IH. destruct (String.eqb_spec k' k); [congruence|reflexivity].
  - now rewrite IH.
Qed.

Lemma dict_get_contains (k v : string) (d : dict) :
  dict_get k d = Some v -> dict_contains k d = true.
Proof.
  induction d as [|[k0 v0] d IH]; [discriminate|].
  simpl. destruct (String.eqb k0 k); [reflexivity|exact IH].
Qed.

Lemma strip_name_tag (c : element) : tag (strip_name c) = tag c.
Proof. unfold strip_name. now destruct (_ && _). Qed.

Lemma strip_name_lang (c : element) :
  dict_contains "lang" (attrib (strip_name c)) = dict_contains "lang" (attrib c).
Proof.
  unfold strip_name. destruct (_ && _); [|reflexivity].
  simpl. now apply dict_contains_del_ne.
Qed.

Lemma strip_name_sans_serif (c : element) :
  dict_get "name" (attrib c) = Some "sans-serif" -> strip_name c = del_attrib c "name".
Proof.
  intros H. unfold strip_name. rewrite (dict_get_contains _ _ _ H), H.
  now rewrite bool_decide_true.
Qed.

Lemma passed_is_family (c : element) : is_family (passed c) = is_family c.
Proof.
  unfold passed. destruct (is_family c) eqn:E; [|exact E].
  unfold is_family in *. now rewrite strip_name_tag.
Qed.

Section SpliceFacts.

Variable fn : string.

(** The loop, run from any tree and flag, appends [spliced]. *)
Lemma splice_fold (l : list element) (familyset : element) (inserted : bool) :
  fst (fold_left (splice_child fn) l (familyset, inserted))
  = mkElement (tag familyset) (attrib familyset) (text familyset) (tail familyset)
              (children familyset ++ spliced fn inserted l).
Proof.
  revert familyset inserted.
  induction l as [|c l IH]; intros familyset inserted.
  - simpl. rewrite app_nil_r. now destruct familyset.
  - cbn [fold_left spliced]. unfold splice_child at 2.
    unfold lang_family, passed, has_attr, is_family.
    destruct (String.eqb (tag c) "family") eqn:Etag; cbn [andb].
    + rewrite strip_name_lang.
      destruct (dict_contains "lang" (attrib c) && negb inserted) eqn:E.
      * rewrite IH. cbn. now rewrite <- !app_assoc.
      * rewrite IH. cbn. now rewrite <- !app_assoc.
    + rewrite IH. cbn. now rewrite <- !app_assoc.
Qed.

Lemma build_children (root : element) :
  children (build_familyset fn root)
  = sans_serif_family :: custom_family fn :: spliced fn false (children root).
Proof. unfold build_familyset. now rewrite splice_fold. Qed.

Lemma spliced_inserted (l : list element) : spliced fn true l = map passed l.
Proof.
  induction l as [|c l IH]; [reflexivity|].
  cbn [spliced map]. rewrite andb_false_r. now rewrite IH.
Qed.

Lemma spliced_none (l : list element) :
  existsb lang_family l = false -> spliced fn false l = map passed l.
Proof.
  induction l as [|c l IH]; [reflexivity|].
  cbn [existsb spliced map]. intros [Hc Hl]%orb_false_elim.
  rewrite Hc. cbn [andb]. now rewrite IH.
Qed.

Lemma spliced_first (pre post : list element) (c : element) :
  existsb lang_family pre = false -> lang_family c = true ->
  spliced fn false (pre ++ c :: post)
  = map passed pre ++ family_with_lang fn :: passed c :: map passed post.
Proof.
  induction pre as [|x pre IH]; intros Hpre Hc.
  - cbn [app spliced map]. rewrite Hc. cbn [andb negb]. now rewrite spliced_inserted.
  - cbn [existsb] in Hpre. apply orb_false_elim in Hpre as [Hx Hpre].
    cbn [app spliced map]. rewrite Hx. cbn [andb]. now rewrite IH.
Qed.

Lemma count_families_passed (l : list element) :
  count_families (map passed l) = count_families l.
Proof.
  unfold count_families. induction l as [|c l IH]; [reflexivity|].
  cbn [map List.filter]. rewrite passed_is_family.
  destruct (is_family c); cbn [length]; now rewrite IH.
Qed.

Lemma family_with_lang_is_family : is_family (family_with_lang fn) = true.
Proof. reflexivity. Qed.

Lemma count_families_spliced (l : list element) (inserted : bool) :
  count_families (spliced fn inserted l)
  = (count_families l
     + if negb inserted && existsb lang_family l then 1 else 0)%nat.
Proof.
  revert inserted. induction l as [|c l IH]; intros inserted.
  - cbn. now rewrite andb_false_r.
  - cbn [spliced existsb]. destruct (lang_family c) eqn:Hc; cbn [andb orb].
    + destruct inserted; cbn [negb andb].
      * unfold count_families in *. cbn [List.filter]. rewrite passed_is_family.
        specialize (IH true). cbn [negb andb] in IH.
        destruct (is_family c); cbn [length]; rewrite IH; lia.
      * unfold count_families in *. cbn [List.filter].
        rewrite family_with_lang_is_family, passed_is_family.
        specialize (IH true). cbn [negb andb] in IH.
        destruct (is_family c); cbn [length]; rewrite IH; lia.
    + unfold count_families in *. cbn [List.filter]. rewrite passed_is_family.
      specialize (IH inserted).
      destruct (is_family c); cbn [length]; rewrite IH; lia.
Qed.

End SpliceFacts.

Lemma dict_del_filter (k : string) (d : dict) :
  dict_del k d = List.filter (fun kv => negb (String.eqb (fst kv) k)) d.
Proof.
  induction d as [|[k0 v] d IH]; [reflexivity|].
  simpl. destruct (String.eqb k0 k); simpl; now rewrite IH.
Qed.

Lemma spliced_lookup (fn : string) (l : list element) (inserted : bool) (i : nat)
      (c : element) :
  l !! i = Some c ->
  spliced fn inserted l
    !! (i + if negb inserted && existsb lang_family (take (S i) l) then 1 else 0)%nat
  = Some (passed c).
Proof.
  revert inserted i. induction l as [|x l IH]; intros inserted i Hi; [discriminate|].
  destruct i as [|i].
  - cbn in Hi. injection Hi as ->.
    cbn [take existsb spliced]. rewrite orb_false_r, (andb_comm (negb inserted)).
    now destruct (lang_family c && negb inserted).
  - cbn in Hi. cbn [take existsb spliced].
    destruct (lang_family x) eqn:Hx, inserted; cbn [andb negb orb].
    + specialize (IH true i Hi). cbn [negb andb] in IH.
      rewrite Nat.add_0_r in *. exact IH.
    + specialize (IH true i Hi). cbn [negb andb] in IH.
      rewrite Nat.add_0_r in IH. now replace (S i + 1)%nat with (S (S i)) by lia.
    + specialize (IH true i Hi). cbn [negb andb] in IH. exact IH.
    + specialize (IH false i Hi). cbn [negb andb] in IH. exact IH.
Qed.

(** ** The claims about the splice *)

(** C1, as the code has it: with N [family] elements among the children of
    the root of the base document, the tree built by the transform has
    N + 3 [family] children when some [family] child carries a [lang]
    attribute, and N + 2 otherwise (the fallback family and the custom
    family are both added, whatever the document). *)
Theorem C1_family_count (fn : string) (root : element) :
  count_families (children (build_familyset fn root))
  = (count_families (children root) + 2
     + if existsb lang_family (children root) then 1 else 0)%nat.
Proof.
  rewrite build_children.
  change (count_families (sans_serif_family :: custom_family fn :: ?l))
    with (S (S (count_families l))).
  rewrite count_families_spliced. cbn [negb andb]. lia.
Qed.

(** C1 as stated fails on the empty document: no child, hence N = 0 and no
    [lang] attribute, yet the output has two [family] children, not N + 1;
    and on a document of one [family] carrying [lang], where N = 1 and the
    output has four [family] children, not N + 2. *)
Lemma C1_counterexample :
  (count_families (children (doc [])) = 0%nat
   /\ existsb (has_attr "lang") (children (doc [])) = false
   /\ count_families (children (build_familyset "MyFont.ttf" (doc []))) = 2%nat
   /\ count_families (children (build_familyset "MyFont.ttf" (doc [])))
      <> (count_families (children (doc [])) + 1)%nat)
  /\ (count_families (children (doc [family_ja])) = 1%nat
      /\ existsb (has_attr "lang") (children (doc [family_ja])) = true
      /\ count_families (children (build_familyset "MyFont.ttf" (doc [family_ja]))) = 4%nat
      /\ count_families (children (build_familyset "MyFont.ttf" (doc [family_ja])))
         <> (count_families (children (doc [family_ja])) + 2)%nat).
Proof.
  split; (split; [reflexivity|]); (split; [reflexivity|]); (split; [reflexivity|]);
    cbv; discriminate.
Qed.

(** C2, as the code has it: when some [family] child of the root carries a
    [lang] attribute, the output is the fallback family, the custom family
    and the (possibly stripped) children in their order, with exactly one
    more element, a [family] with [lang="zh-Hans"], immediately before the
    first [family] child that carries [lang]; when no [family] child carries
    [lang], nothing is inserted among the children. *)
Theorem C2_lang_family_insertion (fn : string) (root : element) :
  (forall pre c post,
      children root = pre ++ c :: post ->
      existsb lang_family pre = false ->
      lang_family c = true ->
      children (build_familyset fn root)
      = [sans_serif_family; custom_family fn]
          ++ map passed pre ++ family_with_lang fn :: map passed (c :: post))
  /\ (existsb lang_family (children root) = false ->
      children (build_familyset fn root)
      = [sans_serif_family; custom_family fn] ++ map passed (children root))
  /\ tag (family_with_lang fn) = "family"
  /\ attrib (family_with_lang fn) = [("lang", "zh-Hans")].
Proof.
  split; [|split; [|split; reflexivity]].
  - intros pre c post Hroot Hpre Hc.
    rewrite build_children, Hroot. now rewrite spliced_first.
  - intros Hnone. rewrite build_children. now rewrite spliced_none.
Qed.

(** The first part of C2 on a document of three families. *)
Lemma C2_witness :
  children (build_familyset "MyFont.ttf" (doc [family_sans; family_ja; family_both]))
  = [sans_serif_family; custom_family "MyFont.ttf"]
      ++ map passed [family_sans]
      ++ family_with_lang "MyFont.ttf" :: map passed [family_ja; family_both].
Proof.
  apply (proj1 (C2_lang_family_insertion "MyFont.ttf"
                  (doc [family_sans; family_ja; family_both]))
               [family_sans] family_ja [family_both]); reflexivity.
Defined.

(** C2 as stated fails when an element that is not a [family] carries
    [lang]: here the first child carrying [lang] is the [alias], and the
    inserted family stands after it, before the [family] that follows. *)
Lemma C2_counterexample :
  has_attr "lang" alias_lang = true
  /\ children (build_familyset "MyFont.ttf" (doc [alias_lang; family_ja]))
     = [sans_serif_family; custom_family "MyFont.ttf";
        alias_lang; family_with_lang "MyFont.ttf"; family_ja]
  /\ children (build_familyset "MyFont.ttf" (doc [alias_lang; family_ja]))
     <> [sans_serif_family; custom_family "MyFont.ttf";
         family_with_lang "MyFont.ttf"; alias_lang; family_ja]
  /\ children (build_familyset "MyFont.ttf" (doc [alias_lang]))
     = [sans_serif_family; custom_family "MyFont.ttf"; alias_lang].
Proof.
  split; [reflexivity|]. split; [reflexivity|]. split; [|reflexivity].
  cbv. discriminate.
Qed.

(** C3: every [family] child of the root that carries [name="sans-serif"],
    wherever it stands, is in the output (two places further, three once
    the language family has been inserted) without the [name] attribute;
    its other attributes keep their values and their order, and its tag,
    text, tail and children are those of the original. *)
Theorem C3_sans_serif_stripped (fn : string) (root : element) (i : nat) (c : element) :
  children root !! i = Some c ->
  is_family c = true ->
  dict_get "name" (attrib c) = Some "sans-serif" ->
  exists c',
    children (build_familyset fn root)
      !! (i + 2 + if existsb lang_family (take (S i) (children root)) then 1 else 0)%nat
    = Some c'
    /\ has_attr "name" c' = false
    /\ (forall k, k <> "name" -> dict_get k (attrib c') = dict_get k (attrib c))
    /\ attrib c' = List.filter (fun kv => negb (String.eqb (fst kv) "name")) (attrib c)
    /\ tag c' = tag c /\ text c' = text c /\ tail c' = tail c
    /\ children c' = children c.
Proof.
  intros Hi Hfam Hname. exists (del_attrib c "name").
  split; [|split; [|split; [|split]]].
  - rewrite build_children.
    pose proof (spliced_lookup fn _ false _ _ Hi) as H. cbn [negb andb] in H.
    unfold passed in H. rewrite Hfam, (strip_name_sans_serif _ Hname) in H.
    rewrite <- H.
    set (d := if existsb _ _ then _ else _).
    replace (i + 2 + d)%nat with (S (S (i + d))) by lia. reflexivity.
  - apply dict_contains_del_eq.
  - intros k Hk. now apply dict_get_del_ne.
  - apply dict_del_filter.
  - repeat split.
Qed.

(** C3 on the third child of a document of three families, after the
    insertion of the language family. *)
Lemma C3_witness :
  exists c',
    children (build_familyset "MyFont.ttf" (doc [family_sans; family_ja; family_both]))
      !! 5%nat = Some c'
    /\ has_attr "name" c' = false
    /\ (forall k, k <> "name" -> dict_get k (attrib c') = dict_get k (attrib family_both))
    /\ attrib c' = [("lang", "und-Arab"); ("variant", "elegant")]
    /\ tag c' = "family" /\ text c' = None /\ tail c' = None
    /\ children c' = [].
Proof.
  exact (C3_sans_serif_stripped "MyFont.ttf" (doc [family_sans; family_ja; family_both])
           2 family_both eq_refl eq_refl eq_refl).
Defined.

(** C4: the second child of the output is the custom family: a [family]
    with no attribute at all (hence no [name] and no [lang]) and exactly
    nine [font] children, of weights 100, 200, ..., 900 in this order, each
    with style [normal] and, as text, the base name of the font path the
    packager was built with. *)
Theorem C4_custom_family (template_path font_path base_font_xml_path font_name : string)
        (root : element) :
  let self := ModulePackager_init template_path font_path base_font_xml_path font_name in
  exists custom,
    children (build_familyset (font_file_name self) root) !! 1%nat = Some custom
    /\ tag custom = "family"
    /\ attrib custom = []
    /\ has_attr "name" custom = false /\ has_attr "lang" custom = false
    /\ length (children custom) = 9%nat
    /\ str_of_int <$> range 100 1000 100 = weights_100_900
    /\ children custom = face (basename font_path) <$> weights_100_900
    /\ Forall (fun f => tag f = "font" /\ style f = Some "normal"
                        /\ text f = Some (basename font_path))
              (children custom).
Proof.
  intros self. exists (custom_family (basename font_path)).
  split; [now rewrite build_children|].
  repeat (split; [reflexivity|]).
  repeat constructor.
Qed.

(** C5: for a base document whose children are a family with
    [name="sans-serif"] and then a family with [lang="ja"], whatever they
    contain, and the font file [MyFont.ttf], the children of the output
    are, in this order: the fallback family, the custom family, the first
    family without its [name], the inserted [lang="zh-Hans"] family, and the
    [lang="ja"] family as it was. *)
Theorem C5_example_order
        (template_path base_font_xml_path font_name : string)
        (root_attrib : dict) (root_text root_tail text1 tail1 text2 tail2 : option string)
        (children1 children2 : list element) :
  let self :=
    ModulePackager_init template_path "MyFont.ttf" base_font_xml_path font_name in
  let family1 := mkElement "family" [("name", "sans-serif")] text1 tail1 children1 in
  let family2 := mkElement "family" [("lang", "ja")] text2 tail2 children2 in
  let root := mkElement "familyset" root_attrib root_text root_tail [family1; family2] in
  children (build_familyset (font_file_name self) root)
  = [ sans_serif_family;
      mkElement "family" [] None None (face "MyFont.ttf" <$> weights_100_900);
      mkElement "family" [] text1 tail1 children1;
      mkElement "family" [("lang", "zh-Hans")] None None
                (face "MyFont.ttf" <$> weights_100_900);
      family2 ]
  /\ dict_get "name" (attrib sans_serif_family) = Some "sans-serif".
Proof. split; reflexivity. Qed.

(** C6, as the code has it: the first child of the output is the fixed
    fallback family: a [family] with [name="sans-serif"] and exactly twelve
    [font] children, exactly one for each weight in 100, 300, 400, 500, 700,
    900 and each style in normal, italic.  The text of each face is given by
    its weight and its style: [EmptyFont-], the name of the weight ([Thin],
    [Light], [Regular], [Medium], [Bold], [Black]), the suffix [Italic] for
    an italic face, and [.ttf]; but the name [Regular] is left out before
    [Italic], so that the italic face of weight 400 is
    [EmptyFont-Italic.ttf]. *)
Theorem C6_fallback_family (fn : string) (root : element) :
  exists fallback,
    children (build_familyset fn root) !! 0%nat = Some fallback
    /\ tag fallback = "family"
    /\ dict_get "name" (attrib fallback) = Some "sans-serif"
    /\ length (children fallback) = 12%nat
    /\ Forall (fun ws => length (faces_with (fst ws) (snd ws) fallback) = 1%nat)
              (list_prod ["100"; "300"; "400"; "500"; "700"; "900"] ["normal"; "italic"])
    /\ Forall (fun f => tag f = "font"
                        /\ exists w WeightName,
                             weight f = Some w
                             /\ dict_get w weight_names = Some WeightName
                             /\ text f = Some ("EmptyFont-"
                                                ++ face_name WeightName (StyleSuffix (style f))
                                                ++ ".ttf")%string)
              (children fallback).
Proof.
  exists sans_serif_family.
  split; [now rewrite build_children|].
  repeat (split; [reflexivity|]).
  split; [repeat constructor|].
  unfold sans_serif_family; cbn [children].
  repeat (apply List.Forall_cons;
          [split; [reflexivity|eexists _, _; repeat split; reflexivity]|]).
  apply List.Forall_nil.
Qed.

Lemma string_length_app (s t : string) :
  String.length (s ++ t)%string = (String.length s + String.length t)%nat.
Proof.
  induction s as [|a s IH]; [reflexivity|].
  change (String a s ++ t)%string with (String a (s ++ t)).
  cbn [String.length plus]. now rewrite IH.
Qed.

(** C6 as stated fails at the italic face of weight 400.  The normal face of
    that weight is [EmptyFont-Regular.ttf], so the name of the weight is
    [Regular] and the pattern [EmptyFont-<WeightName><StyleSuffix>.ttf]
    gives [EmptyFont-RegularItalic.ttf] for the italic face; the code has
    [EmptyFont-Italic.ttf], which no weight name shared with the normal face
    produces. *)
Lemma C6_counterexample :
  exists normal italic,
    faces_with "400" "normal" sans_serif_family = [normal]
    /\ faces_with "400" "italic" sans_serif_family = [italic]
    /\ text normal = Some (placeholder "Regular" (StyleSuffix (style normal)))
    /\ text italic = Some "EmptyFont-Italic.ttf"
    /\ text italic <> Some (placeholder "Regular" (StyleSuffix (style italic)))
    /\ forall WeightName,
         text normal = Some (placeholder WeightName (StyleSuffix (style normal))) ->
         text italic <> Some (placeholder WeightName (StyleSuffix (style italic))).
Proof.
  eexists _, _.
  split; [reflexivity|]. split; [reflexivity|].
  split; [reflexivity|]. split; [reflexivity|].
  split; [discriminate|].
  intros WeightName Hn Hi.
  injection Hn as Hn. injection Hi as Hi.
  apply (f_equal String.length) in Hn, Hi.
  unfold placeholder in Hn, Hi. rewrite !string_length_app in Hn, Hi.
  cbn in Hn, Hi.
  change (StyleSuffix (Some "normal")) with ""%string in Hn.
  change (StyleSuffix (Some "italic")) with "Italic"%string in Hi.
  cbn in Hn, Hi. lia.
Qed.

(** C10: a [family] child that carries both [name="sans-serif"] and a [lang]
    attribute, with no [family] carrying [lang] before it, gets both
    treatments in the same iteration: the language family, a [family] whose
    only attribute is [lang="zh-Hans"] and whose faces are the nine weights
    of the font file, is appended, and right after it the child itself
    without its [name], its [lang] kept. *)
Theorem C10_both_rules (fn : string) (root : element) (pre post : list element)
        (c : element) :
  children root = pre ++ c :: post ->
  is_family c = true ->
  dict_get "name" (attrib c) = Some "sans-serif" ->
  has_attr "lang" c = true ->
  existsb lang_family pre = false ->
  children (build_familyset fn root)
  = [sans_serif_family; custom_family fn]
      ++ map passed pre
      ++ [ mkElement "family" [("lang", "zh-Hans")] None None
                     (face fn <$> weights_100_900);
           del_attrib c "name" ]
      ++ map passed post
  /\ tag (del_attrib c "name") = "family"
  /\ has_attr "name" (del_attrib c "name") = false
  /\ has_attr "lang" (del_attrib c "name") = true
  /\ dict_get "lang" (attrib (del_attrib c "name")) = dict_get "lang" (attrib c)
  /\ text (del_attrib c "name") = text c
  /\ tail (del_attrib c "name") = tail c
  /\ children (del_attrib c "name") = children c.
Proof.
  intros Hroot Hfam Hname Hlang Hpre.
  split; [|split; [|split; [|split; [|split]]]].
  - rewrite build_children, Hroot.
    rewrite spliced_first by (trivial; unfold lang_family; now rewrite Hfam, Hlang).
    unfold passed at 2. now rewrite Hfam, (strip_name_sans_serif _ Hname).
  - unfold is_family in Hfam. now apply String.eqb_eq in Hfam.
  - apply dict_contains_del_eq.
  - unfold has_attr, del_attrib in *. cbn [attrib].
    now rewrite dict_contains_del_ne.
  - unfold del_attrib. cbn [attrib]. now apply dict_get_del_ne.
  - repeat split.
Qed.

(** C10 on a document whose second child carries both attributes. *)
Lemma C10_witness :
  children (build_familyset "MyFont.ttf" (doc [alias_lang; family_both; family_ja]))
  = [sans_serif_family; custom_family "MyFont.ttf"]
      ++ map passed [alias_lang]
      ++ [ mkElement "family" [("lang", "zh-Hans")] None None
                     (face "MyFont.ttf" <$> weights_100_900);
           del_attrib family_both "name" ]
      ++ map passed [family_ja].
Proof.
  exact (proj1 (C10_both_rules "MyFont.ttf" (doc [alias_lang; family_both; family_ja])
                  [alias_lang] [family_ja] family_both
                  eq_refl eq_refl eq_refl eq_refl eq_refl)).
Defined.

(** ** Properties of the packaging *)

Section ScriptFacts.

Context {Lib : Library}.

Lemma no_archive_app (t u : list event) :
  no_archive (t ++ u) = no_archive t && no_archive u.
Proof. apply forallb_app. Qed.

(** A loop of logged calls either logs them all as returned, or stops at
    the first that raises. *)
Lemma for_perform {A B} (l : list A) (body : A -> M unit) (c : A -> call)
      (op : A -> world -> result B * world) (s : state) :
  (forall x, body x = bind (perform (c x) (op x)) (fun _ => ret tt)) ->
  (fst (for_ l body s) = Return tt
   /\ st_trace (snd (for_ l body s)) = st_trace s ++ (returned <$> (c <$> l)))
  \/ (exists e done x,
        fst (for_ l body s) = Raise e
        /\ st_trace (snd (for_ l body s))
           = st_trace s ++ (returned <$> (c <$> done)) ++ [mkEvent (c x) (Some e)]).
Proof.
  intros Hbody. revert s. induction l as [|x l IH]; intros s.
  - left. cbn. now rewrite app_nil_r.
  - assert (Hstep : for_ (x :: l) body s
                    = match op x (st_world s) with
                      | (Return _, w) =>
                          for_ l body (mkState w (st_trace s ++ [returned (c x)]))
                      | (Raise e, w) =>
                          (Raise e, mkState w (st_trace s ++ [mkEvent (c x) (Some e)]))
                      end).
    { cbn [for_]. rewrite Hbody. unfold bind, perform, ret.
      now destruct (op x (st_world s)) as [[b|e] w]. }
    rewrite Hstep. clear Hstep.
    destruct (op x (st_world s)) as [[b|e] w].
    + destruct (IH (mkState w (st_trace s ++ [returned (c x)])))
        as [[Hr Ht]|(e & done & y & Hr & Ht)].
      * left. split; [exact Hr|]. rewrite Ht. cbn [st_trace fmap list_fmap].
        now rewrite <- app_assoc.
      * right. exists e, (x :: done), y. split; [exact Hr|].
        rewrite Ht. cbn [st_trace fmap list_fmap]. now rewrite <- !app_assoc.
    + right. exists e, [], x. split; reflexivity.
Qed.

Lemma bind_run {A B} (m : M A) (k : A -> M B) (s s' : state) (r : result B) :
  bind m k s = (r, s') ->
  (exists a s1, m s = (Return a, s1) /\ k a s1 = (r, s'))
  \/ (exists e, m s = (Raise e, s') /\ r = Raise e).
Proof.
  unfold bind. destruct (m s) as [[a|e] s1]; intros H.
  - left. now exists a, s1.
  - right. injection H as <- <-. now exists e.
Qed.

Lemma perform_run {A} (c : call) (op : world -> result A * world) (s s' : state)
      (r : result A) :
  perform c op s = (r, s') -> st_trace s' = st_trace s ++ [mkEvent c (raised r)].
Proof.
  unfold perform. destruct (op (st_world s)) as [r0 w]. now intros [= <- <-].
Qed.

Lemma lift_run {A} (x : result A) (s s' : state) (r : result A) :
  lift x s = (r, s') -> s' = s.
Proof. now intros [= _ <-]. Qed.

Lemma ret_run {A} (a : A) (s s' : state) (r : result A) :
  ret a s = (r, s') -> r = Return a /\ s' = s.
Proof. now intros [= <- <-]. Qed.

Lemma with_run {A B} (enter : M A) (exit : A -> M unit) (body : A -> M B)
      (s s' : state) (r : result B) :
  with_ enter exit body s = (r, s') ->
  (exists e, enter s = (Raise e, s') /\ r = Raise e)
  \/ (exists x s1 rb s2 rx,
        enter s = (Return x, s1) /\ body x s1 = (rb, s2) /\ exit x s2 = (rx, s')
        /\ r = match rx with Return _ => rb | Raise e => Raise e end).
Proof.
  unfold with_. intros [(x & s1 & He & H)|(e & He & ->)]%bind_run.
  - right. destruct (body x s1) as [rb s2] eqn:Hb.
    destruct (exit x s2) as [rx s3] eqn:Hx.
    exists x, s1, rb, s2, rx. repeat split; trivial.
    + destruct rx; now injection H as <- <-.
    + destruct rx; now injection H as <- <-.
  - left. now exists e.
Qed.

Lemma prop_line_body (file : string) (kv : string * string) :
  (let '(k, v) := kv in
   let line := (k ++ "=" ++ v ++ LF)%string in
   bind (perform (write file line) (file_write file line)) (fun _ => ret tt))
  = bind (perform (write file (prop_line kv)) (file_write file (prop_line kv)))
         (fun _ => ret tt).
Proof. now destruct kv. Qed.

Lemma no_archive_writes (file : string) (l : dict) :
  no_archive (returned <$> ((fun kv => write file (prop_line kv)) <$> l)) = true.
Proof. induction l as [|x l IH]; [reflexivity|exact IH]. Qed.

Lemma open_run (file mode : string) (s s' : state) (r : result string) :
  open_ file mode s = (r, s') ->
  st_trace s' = st_trace s ++ [mkEvent (open file mode) (raised r)]
  /\ forall f, r = Return f -> f = file.
Proof.
  unfold open_. intros [(a & s1 & H0 & [-> ->]%ret_run)|(e & H0 & ->)]%bind_run;
    apply perform_run in H0; (split; [exact H0|]).
  - now intros f [= <-].
  - discriminate.
Qed.

(** The [module.prop] block: all its calls returned, or it raised
    without an archive call. *)
Lemma module_prop_block (file : string) (kwargs : dict) (s s' : state)
      (r : result unit) :
  with_ (open_ file "w+")
        (fun module_prop => perform (close module_prop) (file_close module_prop))
        (fun module_prop =>
           for_ kwargs (fun '(k, v) =>
             let line := (k ++ "=" ++ v ++ LF)%string in
             bind (perform (write module_prop line) (file_write module_prop line))
                  (fun _ => ret tt))) s = (r, s') ->
  (r = Return tt
   /\ st_trace s'
      = st_trace s
          ++ (returned <$> [open file "w+"]
                             ++ ((fun kv => write file (prop_line kv)) <$> kwargs)
                             ++ [close file]))
  \/ (exists e t, r = Raise e /\ st_trace s' = st_trace s ++ t /\ no_archive t = true).
Proof.
  intros [(e & H0 & ->)|(f & s1 & rb & s2 & rx & H0 & Hb & Hx & ->)]%with_run;
    apply open_run in H0 as [H0 Hf].
  { right. now exists e, [mkEvent (open file "w+") (Some e)]. }
  rewrite (Hf f eq_refl) in *. clear Hf.
  apply perform_run in Hx. cbn [raised] in H0.
  destruct (for_perform kwargs _ (fun kv => write file (prop_line kv))
                        (fun kv => file_write file (prop_line kv)) s1
                        (prop_line_body file))
    as [[Hr Ht]|(e & done & x & Hr & Ht)];
    rewrite Hb in Hr, Ht; cbn [fst snd] in Hr, Ht; subst rb;
    rewrite Hx, Ht, H0.
  - destruct rx as [[]|e]; cbn [raised].
    + left. split; [reflexivity|].
      rewrite !fmap_app, <- !app_assoc. reflexivity.
    + right. exists e.
      exists ([returned (open file "w+")]
                ++ (returned <$> ((fun kv => write file (prop_line kv)) <$> kwargs))
                ++ [mkEvent (close file) (Some e)]).
      split; [reflexivity|]. rewrite <- !app_assoc. split; [reflexivity|].
      rewrite !no_archive_app, no_archive_writes. reflexivity.
  - right. exists (match rx with Return _ => e | Raise e' => e' end).
    exists ([returned (open file "w+")]
              ++ (returned <$> ((fun kv => write file (prop_line kv)) <$> done))
              ++ [mkEvent (write file (prop_line x)) (Some e);
                  mkEvent (close file) (raised rx)]).
    split; [now destruct rx|]. rewrite <- !app_assoc. split; [reflexivity|].
    rewrite !no_archive_app, no_archive_writes. reflexivity.
Qed.

(** [__parse_font_xml] logs one call, the parse of the base document;
    when that call raises, so does the method. *)
Lemma parse_font_xml_run (self : ModulePackager) (s s' : state) (r : result string) :
  parse_font_xml self s = (r, s') ->
  exists o,
    st_trace s' = st_trace s ++ [mkEvent (parse (base_font_xml_path self)) o]
    /\ (forall data, r = Return data -> o = None)
    /\ (forall e, o = Some e -> r = Raise e).
Proof.
  unfold parse_font_xml.
  intros [(root & s1 & H0 & H)|(e & H0 & ->)]%bind_run; apply perform_run in H0.
  - exists None. cbn [raised] in H0.
    apply bind_run in H as [(d & s2 & H1 & [-> ->]%ret_run)|(e & H1 & ->)];
      apply lift_run in H1 as ->; (split; [exact H0|]); split;
      intros; congruence.
  - exists (Some e). split; [exact H0|]. split; intros; congruence.
Qed.

(** The [fonts.xml] block: all its calls returned, or it raised without
    an archive call. *)
Lemma fonts_xml_block (self : ModulePackager) (file : string) (s s' : state)
      (r : result Z) :
  with_ (open_ file "w+")
        (fun font_xml => perform (close font_xml) (file_close font_xml))
        (fun font_xml =>
           bind (parse_font_xml self)
                (fun data => perform (write font_xml data) (file_write font_xml data)))
        s = (r, s') ->
  (exists n data,
      r = Return n
      /\ st_trace s'
         = st_trace s
             ++ (returned <$> [open file "w+"; parse (base_font_xml_path self);
                               write file data; close file]))
  \/ (exists e t, r = Raise e /\ st_trace s' = st_trace s ++ t /\ no_archive t = true).
Proof.
  intros [(e & H0 & ->)|(f & s1 & rb & s2 & rx & H0 & Hb & Hx & ->)]%with_run;
    apply open_run in H0 as [H0 Hf].
  { right. now exists e, [mkEvent (open file "w+") (Some e)]. }
  rewrite (Hf f eq_refl) in *. clear Hf.
  apply perform_run in Hx. cbn [raised] in H0.
  apply bind_run in Hb as [(data & s3 & Hp & Hw)|(e & Hp & ->)];
    apply parse_font_xml_run in Hp as (o & Hp & Hret & Hraise).
  - rewrite (Hret data eq_refl) in Hp. clear Hret Hraise.
    apply perform_run in Hw. rewrite Hx, Hw, Hp, H0, <- !app_assoc.
    destruct rb as [n|e], rx as [[]|e']; cbn [raised app].
    + left. now exists n, data.
    + right. exists e'. eexists. split; [reflexivity|]. split; reflexivity.
    + right. exists e. eexists. split; [reflexivity|]. split; reflexivity.
    + right. exists e'. eexists. split; [reflexivity|]. split; reflexivity.
  - right. rewrite Hx, Hp, H0, <- !app_assoc.
    exists (match rx with Return _ => e | Raise e' => e' end). eexists.
    split; [now destruct rx|]. split; reflexivity.
Qed.

(** Either the run fails with no archive call in its log, or its log is a
    complete staging, every call of which returned, then the archive
    call, then the removal of the staging directory. *)
Lemma package_module_shape (self : ModulePackager) (kwargs : dict) (w : world)
      (r : result string) (s' : state) :
  package_module self kwargs (mkState w []) = (r, s') ->
  (no_archive (st_trace s') = true
   /\ (exists e, r = Raise e)
   /\ exists o t, st_trace s' = mkEvent TemporaryDirectory o :: t)
  \/ (exists temp data tmp o o',
        st_trace s'
        = (returned <$> staging self kwargs temp data)
            ++ [ mkEvent (make_archive (join tmp [font_name self]) "zip"
                                       (join temp [basename (template_path self)])) o;
                 mkEvent (cleanup temp) o' ]).
Proof.
  intros Hrun. unfold package_module in Hrun.
  apply with_run in Hrun
    as [(e & H0 & ->)|(temp & s1 & rb & s2 & rx & H0 & Hb & Hx & ->)];
    apply perform_run in H0; cbn [st_trace app raised] in H0.
  { left. rewrite H0. split; [reflexivity|]. split; [now exists e|]. eauto. }
  apply perform_run in Hx.
  assert (Hfail : forall e t,
             rb = Raise e -> st_trace s2 = st_trace s1 ++ t -> no_archive t = true ->
             no_archive (st_trace s') = true
             /\ (exists e', match rx with Return _ => rb | Raise e0 => Raise e0 end
                            = Raise e')
             /\ exists o t', st_trace s' = mkEvent TemporaryDirectory o :: t').
  { intros e t -> Ht Hna. rewrite Hx, Ht, H0, !no_archive_app, Hna.
    split; [reflexivity|]. split; [destruct rx; eauto|]. cbn. eauto. }
  apply bind_run in Hb as [(? & s3 & H1 & Hb)|(e & H1 & ->)]; apply perform_run in H1.
  2:{ left. now apply (Hfail e _ eq_refl H1). }
  apply bind_run in Hb as [(? & s4 & H2 & Hb)|(e & H2 & ->)]; apply perform_run in H2;
    rewrite H1, <- app_assoc in H2; clear H1.
  2:{ left. now apply (Hfail e _ eq_refl H2). }
  cbn [raised] in H2.
  apply bind_run in Hb as [(? & s5 & H3 & Hb)|(e & H3 & ->)];
    apply module_prop_block in H3 as [[He H3]|(e' & t & He & H3 & Hna)];
    try discriminate He; rewrite H2, <- app_assoc in H3; clear H2.
  2:{ injection He as <-. left. apply (Hfail e _ eq_refl H3).
      now rewrite !no_archive_app, Hna. }
  clear He.
  apply bind_run in Hb as [(? & s6 & H4 & Hb)|(e & H4 & ->)];
    apply fonts_xml_block in H4 as [(n & data & He & H4)|(e' & t & He & H4 & Hna)];
    try discriminate He; rewrite H3, <- app_assoc in H4; clear H3.
  2:{ injection He as <-. left. apply (Hfail e _ eq_refl H4).
      rewrite !no_archive_app, Hna, !fmap_app, !no_archive_app, no_archive_writes.
      reflexivity. }
  clear He.
  apply bind_run in Hb as [(tmp & s7 & H5 & Hb)|(e & H5 & ->)]; apply perform_run in H5;
    rewrite H4, <- app_assoc in H5; clear H4.
  2:{ left. apply (Hfail e _ eq_refl H5).
      rewrite !no_archive_app, !fmap_app, !no_archive_app, no_archive_writes.
      reflexivity. }
  cbn [raised] in H5.
  assert (Hlog : exists o,
             st_trace s2
             = st_trace s7
                 ++ [mkEvent (make_archive (join tmp [font_name self]) "zip"
                                (join temp [basename (template_path self)])) o]).
  { apply bind_run in Hb as [(? & s8 & H6 & [_ ->]%ret_run)|(e & H6 & _)];
      apply perform_run in H6; eauto. }
  destruct Hlog as (o & H6).
  right. exists temp, data, tmp, o, (raised rx).
  rewrite Hx, H6, H5, H0. unfold staging.
  rewrite !fmap_app, <- !app_assoc. reflexivity.
Qed.

Lemma no_archive_staging (self : ModulePackager) (kwargs : dict) (temp data : string) :
  no_archive (returned <$> staging self kwargs temp data) = true.
Proof.
  unfold staging. rewrite !fmap_app, !no_archive_app, no_archive_writes. reflexivity.
Qed.

Lemma no_archive_elem (t : list event) (ev : event) :
  no_archive t = true -> ev ∈ t -> is_make_archive (ev_call ev) = false.
Proof.
  unfold no_archive. rewrite forallb_forall. intros H Hin.
  apply list_elem_of_In, H in Hin. now destruct (is_make_archive _).
Qed.

(** The place of the archive call in a log that has a single one. *)
Lemma split_at_archive (a b pre post : list event) (x ev : event) :
  no_archive a = true -> no_archive b = true ->
  a ++ x :: b = pre ++ ev :: post ->
  is_make_archive (ev_call ev) = true ->
  pre = a.
Proof.
  intros Ha Hb. revert pre. induction a as [|y a IH]; intros pre Heq Hev.
  - destruct pre as [|p pre]; [reflexivity|].
    injection Heq as _ Heq.
    assert (Hin : ev ∈ b) by (rewrite Heq; apply elem_of_app; right; left).
    apply (no_archive_elem _ _ Hb) in Hin. congruence.
  - cbn in Ha. apply andb_true_iff in Ha as [Hy Ha].
    destruct pre as [|p pre].
    + injection Heq as -> _. rewrite Hev in Hy. discriminate.
    + injection Heq as -> Heq. f_equal. now apply IH.
Qed.

(** [package_module] begins by creating the staging directory, whatever
    its arguments. *)
Lemma package_module_first_call (self : ModulePackager) (kwargs : dict) (w : world) :
  exists o t,
    trace_of (package_module self kwargs) w = mkEvent TemporaryDirectory o :: t.
Proof.
  unfold trace_of.
  destruct (package_module self kwargs (mkState w [])) as [r s'] eqn:Hrun.
  apply package_module_shape in Hrun
    as [(_ & _ & Hfirst)|(temp & data & tmp & o & o' & Ht)]; [exact Hfirst|].
  cbn [snd]. rewrite Ht. unfold staging. cbn. eauto.
Qed.

End ScriptFacts.

(** ** The claims about the packaging *)

Lemma main_font_xml_path_eq (__file__ : string) (config : Namespace) :
  (if truthy_opt (font_config config)
   then default (join (dirname __file__) ["template"; "system"; "etc"; "fonts.xml"])
                (font_config config)
   else join (dirname __file__) ["template"; "system"; "etc"; "fonts.xml"])
  = main_font_xml_path __file__ config.
Proof. unfold main_font_xml_path. now destruct (font_config config). Qed.

Lemma main_font_name_eq (config : Namespace) :
  (if negb (truthy_opt (ns_font_name config))
   then fst (splitext (basename (font config)))
   else default EmptyString (ns_font_name config))
  = main_font_name config.
Proof. unfold main_font_name. now destruct (truthy_opt _). Qed.

(** C8, as the code has it: [main], run with a font path at which
    [os.path.exists] finds nothing, prints the message
    [No font file set or font file not exists!] (after the message about the
    font configuration file, when that one is missing too) and exits with
    status -1.  Its log is these prints and nothing else, and the world is
    left as it was: no staging directory is created, the packager is not
    even built. *)
Theorem C8_main_checks_font {Lib : Library} (__file__ : string) (config : Namespace)
        (w : world) :
  os_path_exists (font config) w = false ->
  outcome_of (main __file__ config) w = Raise (SystemExit (-1))
  /\ trace_of (main __file__ config) w
     = main_warning __file__ config w
         ++ [returned (print "No font file set or font file not exists!")]
  /\ Forall (fun ev => is_print (ev_call ev) = true) (trace_of (main __file__ config) w)
  /\ (forall o, mkEvent TemporaryDirectory o ∉ trace_of (main __file__ config) w)
  /\ st_world (snd (main __file__ config (mkState w []))) = w.
Proof.
  intros Hfont. unfold outcome_of, trace_of, main, main_warning.
  rewrite main_font_xml_path_eq.
  unfold bind, exists_, print_, perform, exit, raise, ret. cbn [st_world st_trace].
  destruct (os_path_exists (main_font_xml_path __file__ config) w),
           (truthy (font config));
    cbn [negb st_world st_trace fst snd app raised]; rewrite ?Hfont;
    cbn [negb st_world st_trace fst snd app raised].
  all: split; [reflexivity|].
  all: split; [reflexivity|].
  all: split; [repeat (apply List.Forall_cons; [reflexivity|]); apply List.Forall_nil|].
  all: split; [|reflexivity].
  all: intros o; rewrite ?elem_of_cons, elem_of_nil; intros H; decompose [or] H;
    first [discriminate | contradiction].
Qed.

(** C8 on a machine where nothing exists at the font path. *)
Lemma C8_witness :
  let config := mkNamespace (Some "/home/u/base.xml") "/home/u/Nope.ttf" None in
  let w := Mem.machine (Some (doc [family_sans; family_ja])) in
  outcome_of (Lib := Mem.library) (main "/opt/mod/package.py" config) w
  = Raise (SystemExit (-1))
  /\ trace_of (Lib := Mem.library) (main "/opt/mod/package.py" config) w
     = [returned (print "No font file set or font file not exists!")].
Proof.
  intros config w.
  destruct (C8_main_checks_font (Lib := Mem.library) "/opt/mod/package.py" config w
              eq_refl) as (Hout & Hlog & _).
  split; [exact Hout|exact Hlog].
Defined.

(** C8 as stated fails in two ways.  [package_module] called on its own
    with a font path that does not exist creates the staging directory and
    copies the template into it before the copy of the font raises.  And
    [main] only asks [os.path.exists]: with a font path that names a
    directory, not a file, it goes on, and the staging directory is created
    before the copy of the font raises. *)
Lemma C8_counterexample :
  let self := ModulePackager_init "/opt/mod/template" "/home/u/Nope.ttf"
                                  "/home/u/base.xml" "Nope" in
  let w := Mem.machine (Some (doc [family_sans; family_ja])) in
  let config := mkNamespace (Some "/home/u/base.xml") "/home/u" None in
  (os_path_exists (Library := Mem.library) (font_path self) w = false
   /\ outcome_of (Lib := Mem.library) (package_module self []) w
      = Raise (OSError "No such file or directory: /home/u/Nope.ttf")
   /\ trace_of (Lib := Mem.library) (package_module self []) w
      = [ returned TemporaryDirectory;
          returned (copytree "/opt/mod/template" "/tmp/tmp0/template");
          mkEvent (copy "/home/u/Nope.ttf" "/tmp/tmp0/template/system/fonts")
                  (Some (OSError "No such file or directory: /home/u/Nope.ttf"));
          returned (cleanup "/tmp/tmp0") ])
  /\ (Mem.is_file (font config) w = false
      /\ outcome_of (Lib := Mem.library) (main "/opt/mod/package.py" config) w
         = Raise (OSError "Is a directory: /home/u")
      /\ trace_of (Lib := Mem.library) (main "/opt/mod/package.py" config) w
         = [ returned getlogin;
             returned TemporaryDirectory;
             returned (copytree "/opt/mod/template" "/tmp/tmp0/template");
             mkEvent (copy "/home/u" "/tmp/tmp0/template/system/fonts")
                     (Some (OSError "Is a directory: /home/u"));
             returned (cleanup "/tmp/tmp0") ]).
Proof. repeat split; vm_compute; reflexivity. Qed.

(** C9: if the parse of the base document raises [ParseError],
    [package_module] ends with an exception and its log holds no archive
    call; and whenever the log holds an archive call, what precedes it is a
    complete staging, each call of which returned: the template copy, the
    font copy, the writes of [module.prop], the parse and the write of
    [fonts.xml]. *)
Theorem C9_archive_after_staging {Lib : Library} (self : ModulePackager)
        (kwargs : dict) (w : world) :
  (mkEvent (parse (base_font_xml_path self)) (Some ParseError)
     ∈ trace_of (package_module self kwargs) w ->
   (exists e, outcome_of (package_module self kwargs) w = Raise e)
   /\ no_archive (trace_of (package_module self kwargs) w) = true)
  /\ (forall pre ev post,
        trace_of (package_module self kwargs) w = pre ++ ev :: post ->
        is_make_archive (ev_call ev) = true ->
        exists temp data,
          pre = returned <$> staging self kwargs temp data
          /\ Forall (fun e => ev_raised e = None) pre).
Proof.
  unfold trace_of, outcome_of.
  destruct (package_module self kwargs (mkState w [])) as [r s'] eqn:Hrun.
  cbn [fst snd].
  apply package_module_shape in Hrun
    as [(Hna & (e & ->) & _)|(temp & data & tmp & o & o' & Ht)].
  - split.
    + intros _. split; [now exists e|exact Hna].
    + intros pre ev post Heq Hev.
      assert (Hin : ev ∈ st_trace s')
        by (rewrite Heq; apply elem_of_app; right; left).
      apply (no_archive_elem _ _ Hna) in Hin. congruence.
  - split.
    + intros Hin. exfalso. rewrite Ht in Hin.
      apply elem_of_app in Hin as [Hin|Hin].
      * apply list_elem_of_fmap in Hin as (c & Hc & _). discriminate Hc.
      * rewrite !elem_of_cons, elem_of_nil in Hin.
        decompose [or] Hin; first [discriminate | contradiction].
    + intros pre ev post Heq Hev. exists temp, data.
      rewrite Ht in Heq.
      apply split_at_archive in Heq; trivial; [|apply no_archive_staging].
      subst pre. split; [reflexivity|].
      apply Forall_fmap, Forall_true. reflexivity.
Qed.

(** The first part of C9 on a machine whose base document is malformed. *)
Lemma C9_witness :
  (exists e,
      outcome_of (Lib := Mem.library)
                 (package_module
                    (ModulePackager_init "/opt/mod/template" "/home/u/MyFont.ttf"
                                         "/home/u/base.xml" "MyFont")
                    [("id", "MyFont")])
                 (Mem.machine None) = Raise e)
  /\ no_archive (trace_of (Lib := Mem.library)
                          (package_module
                             (ModulePackager_init "/opt/mod/template" "/home/u/MyFont.ttf"
                                                  "/home/u/base.xml" "MyFont")
                             [("id", "MyFont")])
                          (Mem.machine None)) = true.
Proof.
  apply (proj1 (C9_archive_after_staging (Lib := Mem.library)
                  (ModulePackager_init "/opt/mod/template" "/home/u/MyFont.ttf"
                                       "/home/u/base.xml" "MyFont")
                  [("id", "MyFont")] (Mem.machine None))).
  vm_compute. do 7 right. left.
Defined.


(** ** Further properties of the splice *)

Lemma passed_unnamed (c : element) : named_sans_serif c = false -> passed c = c.
Proof.
  unfold named_sans_serif, passed, strip_name.
  destruct (is_family c); [|reflexivity]. cbn [andb]. intros ->.
  now rewrite andb_false_r.
Qed.

Lemma passed_named (c : element) :
  named_sans_serif c = true -> passed c = del_attrib c "name".
Proof.
  unfold named_sans_serif, passed.
  intros [Hfam Hname%bool_decide_eq_true]%andb_true_iff.
  rewrite Hfam. now apply strip_name_sans_serif.
Qed.

Lemma passed_lang_family (c : element) : lang_family (passed c) = lang_family c.
Proof.
  unfold lang_family, has_attr. rewrite passed_is_family.
  unfold passed. destruct (is_family c); [|reflexivity].
  now rewrite strip_name_lang.
Qed.

Lemma passed_not_named (c : element) : named_sans_serif (passed c) = false.
Proof.
  destruct (named_sans_serif c) eqn:E.
  - rewrite (passed_named _ E). unfold named_sans_serif, del_attrib. cbn [attrib].
    apply andb_false_iff. right. apply bool_decide_eq_false.
    intros H%dict_get_contains. now rewrite dict_contains_del_eq in H.
  - now rewrite (passed_unnamed _ E).
Qed.

Lemma passed_passed (c : element) : passed (passed c) = passed c.
Proof. apply passed_unnamed, passed_not_named. Qed.

Lemma existsb_lang_family_passed (l : list element) :
  existsb lang_family (map passed l) = existsb lang_family l.
Proof.
  induction l as [|c l IH]; [reflexivity|].
  cbn [map existsb]. now rewrite passed_lang_family, IH.
Qed.

(** X1: every child of the root that is not a [family] named [sans-serif]
    (an element of another tag, whatever its attributes, a [family] with
    another name, a [family] with a [lang]) is in the output as it was, two
    places further, three once the language family has been inserted. *)
Theorem X1_other_children_unchanged (fn : string) (root : element) (i : nat)
        (c : element) :
  children root !! i = Some c ->
  named_sans_serif c = false ->
  children (build_familyset fn root)
    !! (i + 2 + if existsb lang_family (take (S i) (children root)) then 1 else 0)%nat
  = Some c.
Proof.
  intros Hi Hc. rewrite build_children.
  pose proof (spliced_lookup fn _ false _ _ Hi) as H. cbn [negb andb] in H.
  rewrite (passed_unnamed _ Hc) in H. rewrite <- H.
  set (d := if existsb _ _ then _ else _).
  now replace (i + 2 + d)%nat with (S (S (i + d))) by lia.
Qed.

(** X1 on an [alias] that carries [name="arial"] and [lang], and on the
    [lang="ja"] family that follows the first family with a [lang]. *)
Lemma X1_witness :
  children (build_familyset "MyFont.ttf" (doc [alias_lang; family_both; family_ja]))
    !! 2%nat = Some alias_lang
  /\ children (build_familyset "MyFont.ttf" (doc [alias_lang; family_both; family_ja]))
       !! 5%nat = Some family_ja.
Proof.
  split.
  - exact (X1_other_children_unchanged "MyFont.ttf"
             (doc [alias_lang; family_both; family_ja]) 0 alias_lang eq_refl eq_refl).
  - exact (X1_other_children_unchanged "MyFont.ttf"
             (doc [alias_lang; family_both; family_ja]) 2 family_ja eq_refl eq_refl).
Defined.

Lemma spliced_take_drop (fn : string) (l : list element) :
  exists k,
    (k <= length l)%nat
    /\ existsb lang_family (take k l) = false
    /\ (if existsb lang_family l
        then exists c, l !! k = Some c /\ lang_family c = true
        else k = length l)
    /\ spliced fn false l
       = map passed (take k l)
           ++ (if existsb lang_family l then [family_with_lang fn] else [])
           ++ map passed (drop k l).
Proof.
  induction l as [|c l (k & Hk & Hpre & Hat & IH)].
  - exists 0%nat. repeat split. cbn. lia.
  - destruct (lang_family c) eqn:Hc.
    + exists 0%nat. split; [cbn; lia|]. split; [reflexivity|].
      cbn [spliced take drop map app existsb lookup list_lookup]. rewrite Hc.
      cbn [andb negb orb]. split; [now exists c|].
      now rewrite spliced_inserted.
    + exists (S k). split; [cbn; lia|]. split; [|split].
      * cbn [take existsb]. now rewrite Hc, Hpre.
      * cbn [existsb]. rewrite Hc. cbn [orb].
        destruct (existsb lang_family l); [exact Hat|cbn; now f_equal].
      * cbn [spliced take drop map app existsb]. rewrite Hc. cbn [andb orb].
        now rewrite IH.
Qed.

(** X2: the children of the output are the fallback family, the custom
    family and then all the children of the root, each passed once and in
    their order, with at most one element more among them: the language
    family, present exactly when a [family] child carries [lang], and then
    right before the first such child: [k] children, none of them a
    [family] with [lang], precede it, and the child at place [k] is one.
    Without such a child nothing is inserted ([k] is then the number of
    children).  So the output has two children more than the root, or
    three. *)
Theorem X2_children_kept_in_order (fn : string) (root : element) :
  exists k,
    (k <= length (children root))%nat
    /\ existsb lang_family (take k (children root)) = false
    /\ (if existsb lang_family (children root)
        then exists c, children root !! k = Some c /\ lang_family c = true
        else k = length (children root))
    /\ children (build_familyset fn root)
       = [sans_serif_family; custom_family fn]
           ++ map passed (take k (children root))
           ++ (if existsb lang_family (children root)
               then [mkElement "family" [("lang", "zh-Hans")] None None
                               (face fn <$> weights_100_900)]
               else [])
           ++ map passed (drop k (children root))
    /\ length (children (build_familyset fn root))
       = (length (children root) + 2
          + if existsb lang_family (children root) then 1 else 0)%nat.
Proof.
  destruct (spliced_take_drop fn (children root)) as (k & Hk & Hpre & Hat & Heq).
  exists k. split; [exact Hk|]. split; [exact Hpre|]. split; [exact Hat|].
  rewrite build_children, Heq. split; [reflexivity|].
  cbn [length]. rewrite !length_app, !length_map, length_take, length_drop.
  destruct (existsb lang_family (children root)); cbn [length]; lia.
Qed.

(** X3: the root of the output is always [<familyset version="23">], with
    no text and no tail: of the root of the base document only the
    children are used, not its tag, its attributes (a different [version],
    say) or its text. *)
Theorem X3_root_is_fixed (fn : string) (root root' : element) :
  tag (build_familyset fn root) = "familyset"
  /\ attrib (build_familyset fn root) = [("version", "23")]
  /\ text (build_familyset fn root) = None
  /\ tail (build_familyset fn root) = None
  /\ (children root = children root' -> build_familyset fn root = build_familyset fn root').
Proof.
  unfold build_familyset. rewrite !splice_fold. cbn.
  repeat (split; [reflexivity|]). now intros ->.
Qed.

(** X3 on two documents with the same children under different roots. *)
Lemma X3_witness :
  build_familyset "MyFont.ttf" (doc [family_sans; family_ja])
  = build_familyset "MyFont.ttf"
      (mkElement "fonts" [("version", "22")] (Some "x") None [family_sans; family_ja]).
Proof.
  apply (X3_root_is_fixed "MyFont.ttf" (doc [family_sans; family_ja])
           (mkElement "fonts" [("version", "22")] (Some "x") None [family_sans; family_ja])).
  reflexivity.
Defined.

Lemma rsplit_sep_spec (p : string) :
  p = (fst (rsplit_sep p) ++ snd (rsplit_sep p))%string
  /\ contains_sep (snd (rsplit_sep p)) = false
  /\ (fst (rsplit_sep p) = EmptyString \/ endswith_sep (fst (rsplit_sep p)) = true).
Proof.
  induction p as [|c p (Heq & Hno & Hend)]; [cbn; auto|].
  cbn [rsplit_sep]. destruct (rsplit_sep p) as [h t]. cbn [fst snd] in *.
  destruct (Ascii.eqb_spec c "/") as [->|Hc].
  - cbn [fst snd]. split; [rewrite Heq at 1; reflexivity|]. split; [exact Hno|]. right.
    destruct Hend as [->|Hend]; [reflexivity|].
    cbn [endswith_sep]. destruct h; [discriminate|exact Hend].
  - destruct h as [|c' h].
    + cbn [fst snd]. split; [rewrite Heq at 1; reflexivity|]. split; [|now left].
      cbn [contains_sep]. rewrite Hno.
      now destruct (Ascii.eqb_spec c "/").
    + cbn [fst snd]. split; [rewrite Heq at 1; reflexivity|]. split; [exact Hno|]. right.
      destruct Hend as [Hend|Hend]; [discriminate|]. exact Hend.
Qed.

(** X5: the file name a packager keeps for the faces of the custom and
    language families is the last component of the font path: it holds no
    [/], and the font path is that name after a prefix that is empty or
    ends with [/].  A font path that ends with [/] gives the empty name. *)
Theorem X5_font_file_name (template_path font_path base_font_xml_path font_name : string) :
  let self := ModulePackager_init template_path font_path base_font_xml_path font_name in
  contains_sep (font_file_name self) = false
  /\ (exists head,
         font_path = (head ++ font_file_name self)%string
         /\ (head = EmptyString \/ endswith_sep head = true))
  /\ (endswith_sep font_path = true -> font_file_name self = EmptyString).
Proof.
  cbn [ModulePackager_init font_file_name]. unfold basename.
  destruct (rsplit_sep_spec font_path) as (Heq & Hno & Hend).
  split; [exact Hno|]. split; [eauto|].
  intros Hp. destruct (snd (rsplit_sep font_path)) as [|c t] eqn:Et; [reflexivity|].
  exfalso. rewrite Heq in Hp. clear Heq Hend.
  revert Hp Hno. generalize (fst (rsplit_sep font_path)) as h.
  assert (Ht : forall u, contains_sep u = false -> endswith_sep u = false).
  { induction u as [|a u IH]; [reflexivity|]. cbn.
    intros [Ha Hu]%orb_false_elim. destruct u; [exact Ha|]. now apply IH. }
  induction h as [|a h IH]; intros Hp Hno.
  - change (endswith_sep (String c t) = true) in Hp. now rewrite (Ht _ Hno) in Hp.
  - apply IH; [|exact Hno].
    change (endswith_sep (String a (h ++ String c t)%string) = true) in Hp.
    cbn [endswith_sep] in Hp.
    destruct (h ++ String c t)%string eqn:E; [|exact Hp].
    destruct h; discriminate.
Qed.

(** X5 on a path that ends with a separator. *)
Lemma X5_witness :
  font_file_name (ModulePackager_init "/opt/mod/template" "/home/u/fonts/"
                                      "/home/u/base.xml" "f") = EmptyString.
Proof.
  apply (X5_font_file_name "/opt/mod/template" "/home/u/fonts/" "/home/u/base.xml" "f").
  reflexivity.
Defined.

(** ** Every run leaves one of the logs *)

Section Runs.

Context {Lib : Library}.

Lemma after_none {A} (r : result A) : after None r = r.
Proof. reflexivity. Qed.

Lemma after_raised {A} (rx : result unit) (r : result A) :
  match rx with Return _ => r | Raise e => Raise e end = after (raised rx) r.
Proof. now destruct rx. Qed.

(** A loop of logged calls stops at the first that raises. *)
Lemma for_perform_split {A B} (l : list A) (body : A -> M unit) (c : A -> call)
      (op : A -> world -> result B * world) (s : state) :
  (forall x, body x = bind (perform (c x) (op x)) (fun _ => ret tt)) ->
  (fst (for_ l body s) = Return tt
   /\ st_trace (snd (for_ l body s)) = st_trace s ++ (returned <$> (c <$> l)))
  \/ (exists e done x rest,
        l = done ++ x :: rest
        /\ fst (for_ l body s) = Raise e
        /\ st_trace (snd (for_ l body s))
           = st_trace s ++ (returned <$> (c <$> done)) ++ [mkEvent (c x) (Some e)]).
Proof.
  intros Hbody. revert s. induction l as [|x l IH]; intros s.
  - left. cbn. now rewrite app_nil_r.
  - assert (Hstep : for_ (x :: l) body s
                    = match op x (st_world s) with
                      | (Return _, w) =>
                          for_ l body (mkState w (st_trace s ++ [returned (c x)]))
                      | (Raise e, w) =>
                          (Raise e, mkState w (st_trace s ++ [mkEvent (c x) (Some e)]))
                      end).
    { cbn [for_]. rewrite Hbody. unfold bind, perform, ret.
      now destruct (op x (st_world s)) as [[b|e] w]. }
    rewrite Hstep. clear Hstep.
    destruct (op x (st_world s)) as [[b|e] w].
    + destruct (IH (mkState w (st_trace s ++ [returned (c x)])))
        as [[Hr Ht]|(e & done & y & rest & Hl & Hr & Ht)].
      * left. split; [exact Hr|]. rewrite Ht. cbn [st_trace fmap list_fmap].
        now rewrite <- app_assoc.
      * right. exists e, (x :: done), y, rest. split; [now rewrite Hl|].
        split; [exact Hr|].
        rewrite Ht. cbn [st_trace fmap list_fmap]. now rewrite <- !app_assoc.
    + right. exists e, [], x, l. repeat split.
Qed.

Lemma module_prop_runs (file : string) (kwargs : dict) (s s' : state) (r : result unit) :
  with_ (open_ file "w+")
        (fun module_prop => perform (close module_prop) (file_close module_prop))
        (fun module_prop =>
           for_ kwargs (fun '(k, v) =>
             let line := (k ++ "=" ++ v ++ LF)%string in
             bind (perform (write module_prop line) (file_write module_prop line))
                  (fun _ => ret tt))) s = (r, s') ->
  exists t, st_trace s' = st_trace s ++ t /\ module_prop_log file kwargs r t.
Proof.
  intros [(e & H0 & ->)|(f & s1 & rb & s2 & rx & H0 & Hb & Hx & ->)]%with_run;
    apply open_run in H0 as [H0 Hf].
  { eexists. split; [exact H0|]. constructor. }
  rewrite (Hf f eq_refl) in *. clear Hf.
  apply perform_run in Hx. cbn [raised] in H0.
  rewrite after_raised.
  destruct (for_perform_split kwargs _ (fun kv => write file (prop_line kv))
                              (fun kv => file_write file (prop_line kv)) s1
                              (prop_line_body file))
    as [[Hr Ht]|(e & done & x & rest & Hl & Hr & Ht)];
    rewrite Hb in Hr, Ht; cbn [fst snd] in Hr, Ht; subst rb;
    rewrite Hx, Ht, H0, <- !app_assoc; eexists; (split; [reflexivity|]).
  - apply mp_written.
  - now apply (mp_write_raised file kwargs done rest x e).
Qed.

(** [__parse_font_xml] logs the parse of the base document; its result is
    the text of the tree built from the parsed root. *)
Lemma parse_font_xml_runs (self : ModulePackager) (s s' : state) (r : result string) :
  parse_font_xml self s = (r, s') ->
  (exists e,
      r = Raise e
      /\ st_trace s' = st_trace s ++ [mkEvent (parse (base_font_xml_path self)) (Some e)])
  \/ (exists root,
        r = dom_string_of (build_familyset (font_file_name self) root)
        /\ st_trace s' = st_trace s ++ [returned (parse (base_font_xml_path self))]).
Proof.
  unfold parse_font_xml.
  intros [(root & s1 & H0 & H)|(e & H0 & ->)]%bind_run; apply perform_run in H0.
  - right. exists root. cbn [raised] in H0. unfold dom_string_of.
    unfold bind, lift, ret in H.
    destruct (minidom_parseString _) as [d|e]; injection H as <- <-; now split.
  - left. now exists e.
Qed.

Lemma fonts_xml_runs (self : ModulePackager) (file : string) (s s' : state)
      (r : result Z) :
  with_ (open_ file "w+")
        (fun font_xml => perform (close font_xml) (file_close font_xml))
        (fun font_xml =>
           bind (parse_font_xml self)
                (fun data => perform (write font_xml data) (file_write font_xml data)))
        s = (r, s') ->
  exists t, st_trace s' = st_trace s ++ t /\ fonts_xml_log self file r t.
Proof.
  intros [(e & H0 & ->)|(f & s1 & rb & s2 & rx & H0 & Hb & Hx & ->)]%with_run;
    apply open_run in H0 as [H0 Hf].
  { eexists. split; [exact H0|]. constructor. }
  rewrite (Hf f eq_refl) in *. clear Hf.
  apply perform_run in Hx. cbn [raised] in H0.
  rewrite after_raised.
  apply bind_run in Hb as [(data & s3 & Hp & Hw)|(e & Hp & ->)];
    apply parse_font_xml_runs in Hp as [(e' & He & Hp)|(root & He & Hp)].
  - discriminate He.
  - apply perform_run in Hw.
    rewrite Hx, Hw, Hp, H0, <- !app_assoc. eexists. split; [reflexivity|].
    now apply (fx_write self file root data).
  - injection He as <-.
    rewrite Hx, Hp, H0, <- !app_assoc. eexists. split; [reflexivity|].
    apply fx_parse_raised.
  - rewrite Hx, Hp, H0, <- !app_assoc. eexists. split; [reflexivity|].
    now apply (fx_dom_raised self file root).
Qed.

Lemma package_module_runs (self : ModulePackager) (kwargs : dict) (s s' : state)
      (r : result string) :
  package_module self kwargs s = (r, s') ->
  exists t, st_trace s' = st_trace s ++ t /\ package_module_log self kwargs r t.
Proof.
  intros Hrun. unfold package_module in Hrun.
  apply with_run in Hrun
    as [(e & H0 & ->)|(temp & s1 & rb & s2 & rx & H0 & Hb & Hx & ->)];
    apply perform_run in H0; cbn [raised] in H0.
  { eexists. split; [exact H0|]. constructor. }
  apply perform_run in Hx. rewrite after_raised.
  enough (Hbody : exists tb, st_trace s2 = st_trace s1 ++ tb
                              /\ body_log self kwargs temp rb tb).
  { destruct Hbody as (tb & Ht & Hlog). eexists.
    rewrite Hx, Ht, H0, <- !app_assoc. split; [reflexivity|].
    now apply (pm_staged self kwargs temp rb tb). }
  clear Hx H0.
  apply bind_run in Hb as [(? & s3 & H1 & Hb)|(e & H1 & ->)]; apply perform_run in H1.
  2:{ eexists. split; [exact H1|]. constructor. }
  apply bind_run in Hb as [(? & s4 & H2 & Hb)|(e & H2 & ->)]; apply perform_run in H2;
    rewrite H1, <- app_assoc in H2; clear H1; cbn [raised app] in H2.
  2:{ eexists. split; [exact H2|]. constructor. }
  apply bind_run in Hb as [([] & s5 & H3 & Hb)|(e & H3 & ->)];
    apply module_prop_runs in H3 as (t1 & H3 & L1);
    rewrite H2, <- app_assoc in H3; clear H2; cbn [app] in H3.
  2:{ eexists. split; [exact H3|]. now apply b_module_prop_raised. }
  apply bind_run in Hb as [(n & s6 & H4 & Hb)|(e & H4 & ->)];
    apply fonts_xml_runs in H4 as (t2 & H4 & L2);
    rewrite H3, <- !app_assoc in H4; clear H3; cbn [app] in H4.
  2:{ eexists. split; [exact H4|]. now apply b_fonts_xml_raised. }
  enough (Htail : exists t3, st_trace s2 = st_trace s6 ++ t3
                              /\ archive_log self temp rb t3).
  { destruct Htail as (t3 & Ht & L3). eexists.
    rewrite Ht, H4, <- !app_assoc. cbn [app]. rewrite <- !app_assoc.
    split; [reflexivity|].
    now apply (b_archive self kwargs temp n rb t1 t2 t3). }
  clear H4.
  apply bind_run in Hb as [(tmp & s7 & H5 & Hb)|(e & H5 & ->)]; apply perform_run in H5.
  2:{ eexists. split; [exact H5|]. constructor. }
  cbn [raised] in H5.
  apply bind_run in Hb as [(z & s8 & H6 & [-> ->]%ret_run)|(e & H6 & ->)];
    apply perform_run in H6; rewrite H5, <- app_assoc in H6;
    (eexists; split; [exact H6|]); apply ar_made.
Qed.

Lemma main_runs (__file__ : string) (config : Namespace) (w : world) :
  main_log __file__ config w (outcome_of (main __file__ config) w)
           (trace_of (main __file__ config) w).
Proof.
  unfold outcome_of, trace_of.
  destruct (main __file__ config (mkState w [])) as [r s'] eqn:Hrun. cbn [fst snd].
  unfold main in Hrun.
  rewrite main_font_xml_path_eq, main_font_name_eq in Hrun.
  fold (main_packager __file__ config) in Hrun.
  apply bind_run in Hrun as [(found & s1 & H0 & Hrun)|(e & H0 & _)];
    [|discriminate H0].
  injection H0 as <- <-.
  assert (Hwarn : exists s2,
             (if negb (os_path_exists (main_font_xml_path __file__ config) w)
              then print_ "Font config file not exists!" else ret tt)
               (mkState w []) = (Return tt, s2)
             /\ st_world s2 = w
             /\ st_trace s2 = main_warning __file__ config w).
  { unfold main_warning.
    destruct (os_path_exists (main_font_xml_path __file__ config) w);
      eexists; (split; [reflexivity|]); split; reflexivity. }
  destruct Hwarn as (s2 & Hw & Hw2 & Ht2).
  cbn [st_world] in Hrun.
  apply bind_run in Hrun as [([] & s2' & H1 & Hrun)|(e & H1 & _)];
    rewrite Hw in H1; [|discriminate H1].
  injection H1 as <-.
  assert (Hmiss : (if negb (truthy (font config)) then ret true
                   else bind (exists_ (font config)) (fun found => ret (negb found))) s2
                  = (Return (negb (font_found config w)), s2)).
  { unfold font_found, bind, exists_, ret.
    destruct (truthy (font config)); cbn [negb andb]; rewrite ?Hw2; reflexivity. }
  apply bind_run in Hrun as [(missing & s3 & H2 & Hrun)|(e & H2 & _)];
    rewrite Hmiss in H2; [|discriminate H2].
  injection H2 as <- <-.
  destruct (font_found config w) eqn:Hfound; cbn [negb] in Hrun.
  - apply bind_run in Hrun as [(login & s3 & H3 & Hrun)|(e & H3 & ->)];
      apply perform_run in H3; rewrite Ht2 in H3.
    2:{ rewrite H3. now apply m_login_raised. }
    cbn [raised] in H3.
    fold (main_module_props (main_font_name config) login) in Hrun.
    apply bind_run in Hrun as [(zip_file & s4 & H4 & Hrun)|(e & H4 & ->)];
      apply package_module_runs in H4 as (t & H4 & Hlog);
      rewrite H3, <- app_assoc in H4.
    2:{ rewrite H4. now apply (m_package_raised __file__ config w login). }
    apply bind_run in Hrun as [(? & s5 & H5 & [-> ->]%ret_run)|(e & H5 & ->)];
      apply perform_run in H5; rewrite H4, <- !app_assoc in H5; rewrite H5.
    + now apply (m_packaged __file__ config w login zip_file t None).
    + now apply (m_packaged __file__ config w login zip_file t (Some e)).
  - apply bind_run in Hrun as [([] & s3 & H3 & Hrun)|(e & H3 & _)];
      [|unfold print_, perform in H3; discriminate H3].
    unfold print_ in H3. apply perform_run in H3. rewrite Ht2 in H3.
    injection Hrun as <- <-. rewrite H3. now apply m_no_font.
Qed.

(** A call that returned was made in the world of the state, and left the
    world of the next state. *)
Lemma perform_returned {A} (c : call) (op : world -> result A * world) (s s' : state)
      (a : A) :
  perform c op s = (Return a, s') ->
  op (st_world s) = (Return a, st_world s')
  /\ st_trace s' = st_trace s ++ [returned c].
Proof.
  unfold perform. destruct (op (st_world s)) as [r0 w]. now intros [= -> <-].
Qed.

Lemma open_returned (file mode f : string) (s s' : state) :
  open_ file mode s = (Return f, s') ->
  f = file
  /\ builtins_open file mode (st_world s) = (Return tt, st_world s')
  /\ st_trace s' = st_trace s ++ [returned (open file mode)].
Proof.
  unfold open_. intros [([] & s1 & H0 & [[= <-] ->]%ret_run)|(e & _ & [=])]%bind_run.
  apply perform_returned in H0 as [H0 Ht]. now repeat split.
Qed.

Lemma with_returned {A B} (enter : M A) (exit : A -> M unit) (body : A -> M B)
      (s s' : state) (b : B) :
  with_ enter exit body s = (Return b, s') ->
  exists x s1 s2,
    enter s = (Return x, s1) /\ body x s1 = (Return b, s2) /\ exit x s2 = (Return tt, s').
Proof.
  intros [(e & _ & [=])|(x & s1 & rb & s2 & rx & H0 & Hb & Hx & Hr)]%with_run.
  destruct rx as [[]|e]; [|discriminate Hr]. subst rb. now exists x, s1, s2.
Qed.

Lemma bind_returned {A B} (m : M A) (k : A -> M B) (s s' : state) (b : B) :
  bind m k s = (Return b, s') ->
  exists a s1, m s = (Return a, s1) /\ k a s1 = (Return b, s').
Proof. now intros [H|(e & _ & [=])]%bind_run. Qed.

Lemma for_writes_returned (file : string) (kwargs : dict) (s s' : state) :
  for_ kwargs (fun '(k, v) =>
    let line := (k ++ "=" ++ v ++ LF)%string in
    bind (perform (write file line) (file_write file line)) (fun _ => ret tt)) s
  = (Return tt, s') ->
  write_lines file kwargs (st_world s) = Some (st_world s')
  /\ st_trace s' = st_trace s ++ prop_writes file kwargs.
Proof.
  revert s. induction kwargs as [|kv kwargs IH]; intros s.
  - intros [= <-]. split; [reflexivity|]. unfold prop_writes. cbn.
    now rewrite app_nil_r.
  - cbn [for_]. rewrite prop_line_body.
    intros ([] & s1 & (n & s0 & Hw & [_ ->]%ret_run)%bind_returned
              & [Hl Ht]%IH)%bind_returned.
    apply perform_returned in Hw as [Hw Ht0]. split.
    + cbn [write_lines]. now rewrite Hw.
    + rewrite Ht, Ht0, <- app_assoc. reflexivity.
Qed.

Lemma parse_font_xml_returned (self : ModulePackager) (s s' : state) (data : string) :
  parse_font_xml self s = (Return data, s') ->
  exists root,
    ElementTree_parse (base_font_xml_path self) (st_world s) = (Return root, st_world s')
    /\ dom_string_of (build_familyset (font_file_name self) root) = Return data
    /\ st_trace s' = st_trace s ++ [returned (parse (base_font_xml_path self))].
Proof.
  unfold parse_font_xml.
  intros (root & s1 & [H0 Ht]%perform_returned & H)%bind_returned.
  exists root. unfold dom_string_of. unfold bind, lift, ret in H.
  destruct (minidom_parseString _) as [d|e]; [|discriminate H].
  injection H as <- <-. now repeat split.
Qed.

(** When [package_module] returns, every call returned, each made in the
    world the call before it left. *)
Lemma package_module_returned_run (self : ModulePackager) (kwargs : dict)
      (s s' : state) (zip_file : string) :
  package_module self kwargs s = (Return zip_file, s') ->
  exists temp root data tmp,
    package_module_returned self kwargs (st_world s) temp root data tmp zip_file
                            (st_world s')
    /\ st_trace s'
       = st_trace s
           ++ (returned <$> staging self kwargs temp data)
           ++ [ returned (make_archive (join tmp [font_name self]) "zip"
                                       (join temp [basename (template_path self)]));
                returned (cleanup temp) ].
Proof.
  unfold package_module.
  intros (temp & s1 & s2 & [H0 T0]%perform_returned & Hb & [Hx Tx]%perform_returned)
           %with_returned.
  apply bind_returned in Hb as (d1 & s3 & [H1 T1]%perform_returned & Hb).
  apply bind_returned in Hb as (d2 & s4 & [H2 T2]%perform_returned & Hb).
  apply bind_returned in Hb as ([] & s5 & Hmp & Hb).
  apply with_returned in Hmp
    as (f & s41 & s42 & (-> & H3 & T3)%open_returned & [H4 T4]%for_writes_returned
          & [H5 T5]%perform_returned).
  apply bind_returned in Hb as (n & s6 & Hfx & Hb).
  apply with_returned in Hfx
    as (f & s51 & s52 & (-> & H6 & T6)%open_returned & Hfx & [H9 T9]%perform_returned).
  apply bind_returned in Hfx
    as (data & s53 & (root & H7 & Hdom & T7)%parse_font_xml_returned
          & [H8 T8]%perform_returned).
  apply bind_returned in Hb as (tmp & s7 & [H10 T10]%perform_returned & Hb).
  apply bind_returned in Hb
    as (z & s8 & [H11 T11]%perform_returned & [[= <-] <-]%ret_run).
  exists temp, root, data, tmp. split.
  - exists (st_world s1), (st_world s3), (st_world s4), (st_world s41), (st_world s42),
      (st_world s5), (st_world s51), (st_world s53), (st_world s52), (st_world s6),
      (st_world s7), (st_world s2), d1, d2, n.
    now repeat split.
  - rewrite Tx, T11, T10, T9, T8, T7, T6, T5, T4, T3, T2, T1, T0.
    unfold staging, prop_writes. rewrite !fmap_app, <- !app_assoc. reflexivity.
Qed.

(** When [main] returns, the font was found, the login name is the one
    [os.getlogin] returned in the world [main] started in, the packager
    ran from the world that call left, and the archive it returned was
    copied in the world the packager left. *)
Lemma main_returned_run (__file__ : string) (config : Namespace) (w : world)
      (s' : state) :
  main __file__ config (mkState w []) = (Return tt, s') ->
  font_found config w = true
  /\ exists login temp root data tmp zip_file (w1 w2 : world) (d : string),
      os_getlogin w = (Return login, w1)
      /\ package_module_returned (main_packager __file__ config)
                                 (main_module_props (main_font_name config) login)
                                 w1 temp root data tmp zip_file w2
      /\ shutil_copy zip_file (dirname __file__) w2 = (Return d, st_world s')
      /\ st_trace s'
         = main_warning __file__ config w
             ++ returned getlogin
             :: (returned <$> staging (main_packager __file__ config)
                                (main_module_props (main_font_name config) login)
                                temp data)
             ++ [ returned (make_archive (join tmp [main_font_name config]) "zip"
                              (join temp [basename (join (dirname __file__) ["template"])]));
                  returned (cleanup temp);
                  returned (copy zip_file (dirname __file__)) ].
Proof.
  intros Hrun. unfold main in Hrun.
  rewrite main_font_xml_path_eq, main_font_name_eq in Hrun.
  fold (main_packager __file__ config) in Hrun.
  apply bind_returned in Hrun as (found & s1 & [= <- <-] & Hrun).
  cbn [st_world] in Hrun.
  apply bind_returned in Hrun as ([] & s2 & H1 & Hrun).
  assert (Hs2 : st_world s2 = w /\ st_trace s2 = main_warning __file__ config w).
  { unfold main_warning.
    destruct (os_path_exists (main_font_xml_path __file__ config) w);
      cbn [negb] in H1.
    - injection H1 as <-. now split.
    - unfold print_ in H1. apply perform_returned in H1 as [[= <-] H1]. now split. }
  destruct Hs2 as [Hw2 Ht2]. clear H1.
  apply bind_returned in Hrun as (missing & s3 & H2 & Hrun).
  assert (Hmiss : missing = negb (font_found config w) /\ s3 = s2).
  { unfold font_found, bind, exists_, ret in *.
    destruct (truthy (font config)); cbn [negb andb] in *; rewrite <- ?Hw2;
      now injection H2 as <- <-. }
  destruct Hmiss as [-> ->]. clear H2.
  destruct (font_found config w) eqn:Hfound; cbn [negb] in Hrun.
  2:{ apply bind_returned in Hrun as (? & ? & _ & [=]). }
  split; [reflexivity|].
  apply bind_returned in Hrun as (login & s3 & [H3 T3]%perform_returned & Hrun).
  fold (main_module_props (main_font_name config) login) in Hrun.
  apply bind_returned in Hrun
    as (zip_file & s4 & (temp & root & data & tmp & H4 & T4)%package_module_returned_run
          & Hrun).
  apply bind_returned in Hrun
    as (d & s5 & [H5 T5]%perform_returned & [_ ->]%ret_run).
  rewrite Hw2 in H3.
  exists login, temp, root, data, tmp, zip_file, (st_world s3), (st_world s4), d.
  split; [exact H3|]. split; [exact H4|]. split; [exact H5|].
  rewrite T5, T4, T3, Ht2.
  cbn [main_packager ModulePackager_init font_name template_path].
  rewrite <- !app_assoc. reflexivity.
Qed.

End Runs.

(** ** Further properties of the packaging *)

Section RunFacts.

Context {Lib : Library}.

Lemma Forall_prop_writes (P : event -> Prop) (file : string) (l : dict) :
  (forall kv, P (returned (write file (prop_line kv)))) ->
  Forall P (prop_writes file l).
Proof.
  intros H. unfold prop_writes. induction l as [|kv l IH]; constructor; auto.
Qed.

Lemma module_prop_log_calls (file : string) (kwargs : dict) (r : result unit)
      (t : list event) :
  module_prop_log file kwargs r t -> Forall (fun ev => on_file file (ev_call ev)) t.
Proof.
  intros [e|done rest kv e o _|o].
  - repeat constructor.
  - constructor; [reflexivity|]. apply Forall_app. split.
    + now apply Forall_prop_writes.
    + repeat constructor.
  - constructor; [reflexivity|]. apply Forall_app. split.
    + now apply Forall_prop_writes.
    + repeat constructor.
Qed.

Lemma fonts_xml_log_calls (self : ModulePackager) (file : string) (r : result Z)
      (t : list event) :
  fonts_xml_log self file r t ->
  Forall (fun ev => on_file file (ev_call ev)
                    \/ ev_call ev = parse (base_font_xml_path self)) t.
Proof.
  intros [];
    repeat (apply List.Forall_cons; [first [left; reflexivity | right; reflexivity]|]);
    apply List.Forall_nil.
Qed.

Lemma archive_log_calls (self : ModulePackager) (temp : string) (r : result string)
      (t : list event) :
  archive_log self temp r t -> Forall (fun ev => is_archive_call (ev_call ev) = true) t.
Proof. intros []; repeat constructor. Qed.

Lemma on_file_staging (file : string) (c : call) :
  on_file file c -> is_staging_call c = true.
Proof. now destruct c. Qed.

Lemma body_log_calls (self : ModulePackager) (kwargs : dict) (temp : string)
      (r : result string) (t : list event) :
  body_log self kwargs temp r t ->
  Forall (fun ev => is_staging_call (ev_call ev) = true) t.
Proof.
  assert (Hmp : forall f r' t', module_prop_log f kwargs r' t' ->
                 Forall (fun ev => is_staging_call (ev_call ev) = true) t').
  { intros f r' t' H%module_prop_log_calls.
    eapply Forall_impl; [exact H|]. cbn beta. intros ev. apply on_file_staging. }
  assert (Hfx : forall f r' t', fonts_xml_log self f r' t' ->
                 Forall (fun ev => is_staging_call (ev_call ev) = true) t').
  { intros f r' t' H%fonts_xml_log_calls.
    eapply Forall_impl; [exact H|]. cbn beta. intros ev [H1|H1].
    - exact (on_file_staging f _ H1).
    - rewrite H1. reflexivity. }
  assert (Har : forall r' t', archive_log self temp r' t' ->
                 Forall (fun ev => is_staging_call (ev_call ev) = true) t').
  { intros r' t' H%archive_log_calls.
    eapply Forall_impl; [exact H|]. cbn beta. intros ev.
    destruct (ev_call ev); cbn; congruence. }
  intros [e|e|e t1 L1|e t1 t2 L1 L2|n r' t1 t2 t3 L1 L2 L3].
  - repeat constructor.
  - repeat constructor.
  - do 2 (constructor; [reflexivity|]). exact (Hmp _ _ _ L1).
  - do 2 (constructor; [reflexivity|]). apply Forall_app. split.
    + exact (Hmp _ _ _ L1).
    + exact (Hfx _ _ _ L2).
  - do 2 (constructor; [reflexivity|]). apply Forall_app. split.
    + exact (Hmp _ _ _ L1).
    + apply Forall_app. split; [exact (Hfx _ _ _ L2)|exact (Har _ _ L3)].
Qed.

Lemma body_log_head (self : ModulePackager) (kwargs : dict) (temp : string)
      (r : result string) (t : list event) :
  body_log self kwargs temp r t ->
  exists o, head t = Some (mkEvent (copytree (template_path self)
                                             (join temp [basename (template_path self)])) o).
Proof. intros []; cbn; eauto. Qed.

(** X6: if the creation of the staging directory raises, [package_module]
    calls nothing else and ends with that exception.  Otherwise its last
    call, on every way out, is the removal of the staging directory, the
    one the template was copied into; no other call creates or removes a
    directory of that kind; and an exception of the removal is the outcome
    of the method. *)
Theorem X6_staging_directory_removed (self : ModulePackager) (kwargs : dict) (w : world) :
  (exists e,
      trace_of (package_module self kwargs) w = [mkEvent TemporaryDirectory (Some e)]
      /\ outcome_of (package_module self kwargs) w = Raise e)
  \/ (exists temp tb o o1,
        trace_of (package_module self kwargs) w
        = returned TemporaryDirectory :: tb ++ [mkEvent (cleanup temp) o]
        /\ Forall (fun ev => is_dir_call (ev_call ev) = false) tb
        /\ head tb = Some (mkEvent (copytree (template_path self)
                                             (join temp [basename (template_path self)]))
                                   o1)
        /\ (forall e, o = Some e -> outcome_of (package_module self kwargs) w = Raise e)).
Proof.
  unfold trace_of, outcome_of.
  destruct (package_module self kwargs (mkState w [])) as [r s'] eqn:Hrun. cbn [fst snd].
  apply package_module_runs in Hrun as (t & -> & Hlog). cbn [st_trace app].
  destruct Hlog as [e|temp rb tb o Hb].
  - left. now exists e.
  - right. destruct (body_log_head _ _ _ _ _ Hb) as (o1 & Hhead).
    exists temp, tb, o, o1. split; [reflexivity|]. split.
    + eapply Forall_impl; [exact (body_log_calls _ _ _ _ _ Hb)|].
      cbn beta. intros ev. destruct (ev_call ev); cbn; congruence.
    + split; [exact Hhead|]. now intros e ->.
Qed.

Lemma module_prop_log_returned (file : string) (kwargs : dict) (t : list event) :
  module_prop_log file kwargs (Return tt) t ->
  t = returned (open file "w+") :: prop_writes file kwargs ++ [returned (close file)].
Proof.
  intros H. inversion H as [|? ? ? ? o Hk Hr|o Hr]; subst.
  - destruct o; discriminate Hr.
  - destruct o; [discriminate Hr|reflexivity].
Qed.

Lemma fonts_xml_log_returned (self : ModulePackager) (file : string) (n : Z)
      (t : list event) :
  fonts_xml_log self file (Return n) t ->
  exists root data,
    dom_string_of (build_familyset (font_file_name self) root) = Return data
    /\ t = returned <$> [ open file "w+"; parse (base_font_xml_path self);
                          write file data; close file ].
Proof.
  intros H.
  inversion H as [|? o Hr|? ? o ? Hr|root data r o Hdom Hr]; subst;
    try (destruct o; discriminate Hr).
  destruct o as [e|]; [discriminate Hr|]. cbn in Hr. subst r.
  now exists root, data.
Qed.

(** A log that ends with a returned value is a complete staging. *)
Lemma package_module_log_returned (self : ModulePackager) (kwargs : dict)
      (zip_file : string) (t : list event) :
  package_module_log self kwargs (Return zip_file) t ->
  exists temp data tmp root,
    t = (returned <$> staging self kwargs temp data)
          ++ [ returned (make_archive (join tmp [font_name self]) "zip"
                                      (join temp [basename (template_path self)]));
               returned (cleanup temp) ]
    /\ dom_string_of (build_familyset (font_file_name self) root) = Return data.
Proof.
  intros H. inversion H as [|temp rb tb o Hb Hr]; subst.
  destruct o as [e|]; [discriminate Hr|]. cbn in Hr. subst rb.
  inversion Hb as [| | | |n r t1 t2 t3 L1 L2 L3]; subst.
  apply module_prop_log_returned in L1 as ->.
  apply fonts_xml_log_returned in L2 as (root & data & Hdom & ->).
  inversion L3 as [|tmp r]; subst.
  exists temp, data, tmp, root. split; [|exact Hdom].
  unfold staging, prop_writes. cbn [raised]. rewrite !fmap_app.
  cbn [app]. rewrite <- ?app_assoc. cbn [app]. rewrite <- ?app_assoc. reflexivity.
Qed.

(** X7: when [package_module] returns, its log is, in this order and with
    every call returned: the creation of the staging directory, the copy of
    the template into it, the copy of the font into its [system/fonts], the
    opening of its [module.prop], one write per entry of the metadata in
    their order, each of the line [key=value], the close, the opening of its
    [system/etc/fonts.xml], the parse of the base document the packager was
    given (not of the staged copy), one write, the close, then the archive
    call on the staging directory and its removal.  Each call was made in
    the world the call before it left, the first in the world of the start.
    The staging directory is the one [TemporaryDirectory] returned; the text
    written to [fonts.xml] is the text of the tree built from the root that
    this parse returned; the archive is asked for in the directory that
    [gettempdir] returned, under the name of the font; and the value
    returned is the path that [make_archive] returned. *)
Theorem X7_returned_run (self : ModulePackager) (kwargs : dict) (w : world)
        (zip_file : string) :
  outcome_of (package_module self kwargs) w = Return zip_file ->
  exists temp root data tmp,
    trace_of (package_module self kwargs) w
    = (returned <$> staging self kwargs temp data)
        ++ [ returned (make_archive (join tmp [font_name self]) "zip"
                                    (join temp [basename (template_path self)]));
             returned (cleanup temp) ]
    /\ dom_string_of (build_familyset (font_file_name self) root) = Return data
    /\ package_module_returned
         self kwargs w temp root data tmp zip_file
         (st_world (snd (package_module self kwargs (mkState w [])))).
Proof.
  unfold trace_of, outcome_of.
  destruct (package_module self kwargs (mkState w [])) as [r s'] eqn:Hrun. cbn [fst snd].
  intros ->.
  apply package_module_returned_run in Hrun as (temp & root & data & tmp & Hw & Ht).
  exists temp, root, data, tmp. split; [exact Ht|]. split; [|exact Hw].
  destruct Hw as (? & ? & ? & ? & ? & ? & ? & ? & ? & ? & ? & ? & ? & ? & ? & Hw).
  apply Hw.
Qed.

(** X8: if the copy of the font raises, nothing has been opened or
    written: the log is the creation of the staging directory, the copy of
    the template, the failed copy and the removal of the directory, and the
    outcome is the exception of the copy, or that of the removal if it
    raises too. *)
Theorem X8_font_copy_raises (self : ModulePackager) (kwargs : dict) (w : world)
        (dst : string) (e : exn) :
  mkEvent (copy (font_path self) dst) (Some e) ∈ trace_of (package_module self kwargs) w ->
  exists temp o,
    dst = join (join temp [basename (template_path self)]) ["system"; "fonts"]
    /\ trace_of (package_module self kwargs) w
       = [ returned TemporaryDirectory;
           returned (copytree (template_path self)
                              (join temp [basename (template_path self)]));
           mkEvent (copy (font_path self) dst) (Some e);
           mkEvent (cleanup temp) o ]
    /\ outcome_of (package_module self kwargs) w = after o (Raise e).
Proof.
  unfold trace_of, outcome_of.
  destruct (package_module self kwargs (mkState w [])) as [r s'] eqn:Hrun. cbn [fst snd].
  apply package_module_runs in Hrun as (t & -> & Hlog). cbn [st_trace app].
  intros Hin.
  destruct Hlog as [e0|temp rb tb o Hb].
  { rewrite elem_of_cons, elem_of_nil in Hin. destruct Hin as [[=]|[]]. }
  rewrite elem_of_cons, elem_of_app, elem_of_cons, elem_of_nil in Hin.
  destruct Hin as [[=]|[Hin|[[=]|[]]]].
  destruct Hb as [e0|e0|e0 t1 L1|e0 t1 t2 L1 L2|n r' t1 t2 t3 L1 L2 L3].
  - rewrite elem_of_cons, elem_of_nil in Hin. destruct Hin as [[=]|[]].
  - rewrite !elem_of_cons, elem_of_nil in Hin.
    destruct Hin as [[=]|[[= -> ->]|[]]]. now exists temp, o.
  - exfalso. rewrite !elem_of_cons in Hin. destruct Hin as [[=]|[[=]|Hin]].
    apply module_prop_log_calls in L1. rewrite Forall_forall in L1.
    apply (L1 _ Hin).
  - exfalso. rewrite !elem_of_cons, elem_of_app in Hin.
    destruct Hin as [[=]|[[=]|[Hin|Hin]]].
    + apply module_prop_log_calls in L1. rewrite Forall_forall in L1.
      apply (L1 _ Hin).
    + apply fonts_xml_log_calls in L2. rewrite Forall_forall in L2.
      destruct (L2 _ Hin) as [H|H]; [exact H|discriminate H].
  - exfalso. rewrite !elem_of_cons, !elem_of_app in Hin.
    destruct Hin as [[=]|[[=]|[Hin|[Hin|Hin]]]].
    + apply module_prop_log_calls in L1. rewrite Forall_forall in L1.
      apply (L1 _ Hin).
    + apply fonts_xml_log_calls in L2. rewrite Forall_forall in L2.
      destruct (L2 _ Hin) as [H|H]; [exact H|discriminate H].
    + apply archive_log_calls in L3. rewrite Forall_forall in L3.
      specialize (L3 _ Hin). discriminate L3.
Qed.

(** X9: if the parse of the base document raises, the template, the font
    and [module.prop] have been staged and the staged [fonts.xml] has been
    opened for writing, but nothing is written to it: it is closed, the
    staging directory is removed, and nothing else is called.  The outcome
    is the exception of the parse, unless the close or the removal raises,
    whose exception then takes its place. *)
Theorem X9_parse_raises (self : ModulePackager) (kwargs : dict) (w : world) (e : exn) :
  mkEvent (parse (base_font_xml_path self)) (Some e)
    ∈ trace_of (package_module self kwargs) w ->
  exists temp o1 o2,
    trace_of (package_module self kwargs) w
    = returned TemporaryDirectory
        :: returned (copytree (template_path self)
                              (join temp [basename (template_path self)]))
        :: returned (copy (font_path self)
                          (join (join temp [basename (template_path self)])
                                ["system"; "fonts"]))
        :: returned (open (join (join temp [basename (template_path self)])
                                ["module.prop"]) "w+")
        :: prop_writes (join (join temp [basename (template_path self)])
                             ["module.prop"]) kwargs
        ++ [ returned (close (join (join temp [basename (template_path self)])
                                   ["module.prop"]));
             returned (open (join (join temp [basename (template_path self)])
                                  ["system"; "etc"; "fonts.xml"]) "w+");
             mkEvent (parse (base_font_xml_path self)) (Some e);
             mkEvent (close (join (join temp [basename (template_path self)])
                                  ["system"; "etc"; "fonts.xml"])) o1;
             mkEvent (cleanup temp) o2 ]
    /\ outcome_of (package_module self kwargs) w = after o2 (after o1 (Raise e)).
Proof.
  unfold trace_of, outcome_of.
  destruct (package_module self kwargs (mkState w [])) as [r s'] eqn:Hrun. cbn [fst snd].
  apply package_module_runs in Hrun as (t & -> & Hlog). cbn [st_trace app].
  intros Hin.
  destruct Hlog as [e0|temp rb tb o Hb].
  { rewrite elem_of_cons, elem_of_nil in Hin. destruct Hin as [[=]|[]]. }
  rewrite elem_of_cons, elem_of_app, elem_of_cons, elem_of_nil in Hin.
  destruct Hin as [[=]|[Hin|[[=]|[]]]].
  assert (Hmp : forall r' t', module_prop_log
                                 (join (join temp [basename (template_path self)])
                                       ["module.prop"]) kwargs r' t' ->
                 mkEvent (parse (base_font_xml_path self)) (Some e) ∈ t' -> False).
  { intros r' t' L1%module_prop_log_calls Hin'. rewrite Forall_forall in L1.
    exact (L1 _ Hin'). }
  destruct Hb as [e0|e0|e0 t1 L1|e0 t1 t2 L1 L2|n r' t1 t2 t3 L1 L2 L3].
  - rewrite elem_of_cons, elem_of_nil in Hin. destruct Hin as [[=]|[]].
  - rewrite !elem_of_cons, elem_of_nil in Hin. destruct Hin as [[=]|[[=]|[]]].
  - exfalso. rewrite !elem_of_cons in Hin. destruct Hin as [[=]|[[=]|Hin]]. eauto.
  - rewrite !elem_of_cons, elem_of_app in Hin.
    destruct Hin as [[=]|[[=]|[Hin|Hin]]]; [exfalso; eauto|].
    apply module_prop_log_returned in L1 as ->.
    inversion L2 as [? Hr|e1 o1 Hr|root e1 o1 Hdom Hr|root data r1 o1 Hdom Hr]; subst;
      rewrite !elem_of_cons, elem_of_nil in Hin.
    + destruct Hin as [[=]|[]].
    + destruct Hin as [[=]|[[= <-]|[[=]|[]]]].
      exists temp, o1, o. split.
      * cbn [app]. rewrite <- !app_assoc. reflexivity.
      * destruct o1; cbn [after] in Hr |- *; now injection Hr as <-.
    + destruct Hin as [[=]|[[=]|[[=]|[]]]].
    + destruct Hin as [[=]|[[=]|[[=]|[[=]|[]]]]].
  - exfalso. rewrite !elem_of_cons, !elem_of_app in Hin.
    destruct Hin as [[=]|[[=]|[Hin|[Hin|Hin]]]]; [eauto| |].
    + apply fonts_xml_log_returned in L2 as (root & data & _ & ->).
      cbn in Hin. rewrite !elem_of_cons, elem_of_nil in Hin.
      destruct Hin as [[=]|[[=]|[[=]|[[=]|[]]]]].
    + apply archive_log_calls in L3. rewrite Forall_forall in L3.
      specialize (L3 _ Hin). discriminate L3.
Qed.

Lemma package_module_log_calls (self : ModulePackager) (kwargs : dict)
      (r : result string) (t : list event) :
  package_module_log self kwargs r t ->
  Forall (fun ev => is_dir_call (ev_call ev) || is_staging_call (ev_call ev) = true) t
  /\ exists o, head t = Some (mkEvent TemporaryDirectory o).
Proof.
  intros [e|temp rb tb o Hb]; (split; [|cbn; eauto]).
  - repeat constructor.
  - constructor; [reflexivity|]. apply Forall_app. split; [|repeat constructor].
    eapply Forall_impl; [exact (body_log_calls _ _ _ _ _ Hb)|].
    cbn beta. intros ev ->. apply orb_true_r.
Qed.

Lemma main_warning_prints (__file__ : string) (config : Namespace) (w : world) :
  Forall (fun ev => ev = returned (print "Font config file not exists!"))
         (main_warning __file__ config w).
Proof. unfold main_warning. destruct (os_path_exists _ w); repeat constructor. Qed.

(** X10: a font configuration file that does not exist is only reported.
    When the font path is set and names an existing file, [main] prints
    the message about the configuration file and goes on: its next call
    asks for the login name, and if that returns the packager starts and
    creates the staging directory. *)
Theorem X10_missing_font_config_is_reported (__file__ : string) (config : Namespace)
        (w : world) :
  os_path_exists (main_font_xml_path __file__ config) w = false ->
  font_found config w = true ->
  exists o t,
    trace_of (main __file__ config) w
    = returned (print "Font config file not exists!") :: mkEvent getlogin o :: t
    /\ (o = None -> exists o', head t = Some (mkEvent TemporaryDirectory o')).
Proof.
  intros Hxml Hfont. pose proof (main_runs __file__ config w) as Hlog.
  destruct Hlog as [Hno|e _|login e t _ Hpm|login zip_file t o _ Hpm];
    [congruence| | |]; unfold main_warning; rewrite Hxml; cbn [app];
    eexists _, _; (split; [reflexivity|]).
  - discriminate.
  - intros _. exact (proj2 (package_module_log_calls _ _ _ _ Hpm)).
  - intros _. destruct (proj2 (package_module_log_calls _ _ _ _ Hpm)) as (o' & Hh).
    exists o'. destruct t; [discriminate Hh|exact Hh].
Qed.


(** X12: if [os.getlogin] raises, [main] ends with that exception right
    there: nothing is staged, the log holds the possible message about the
    configuration file and the failed call. *)
Theorem X12_getlogin_raises (__file__ : string) (config : Namespace) (w : world)
        (e : exn) :
  mkEvent getlogin (Some e) ∈ trace_of (main __file__ config) w ->
  outcome_of (main __file__ config) w = Raise e
  /\ trace_of (main __file__ config) w
     = main_warning __file__ config w ++ [mkEvent getlogin (Some e)].
Proof.
  intros Hin. pose proof (main_runs __file__ config w) as Hlog.
  pose proof (main_warning_prints __file__ config w) as Hw.
  rewrite Forall_forall in Hw.
  assert (Hpm : forall p k r t, package_module_log p k r t ->
                 mkEvent getlogin (Some e) ∈ t -> False).
  { intros p k r t [Hc _]%package_module_log_calls Hin'.
    rewrite Forall_forall in Hc. specialize (Hc _ Hin'). discriminate Hc. }
  destruct Hlog as [Hno|e0 _|login e0 t _ Hlog|login zip_file t o _ Hlog].
  - exfalso. rewrite elem_of_app, elem_of_cons, elem_of_nil in Hin.
    destruct Hin as [Hin|[[=]|[]]]. specialize (Hw _ Hin). discriminate Hw.
  - rewrite elem_of_app, elem_of_cons, elem_of_nil in Hin.
    destruct Hin as [Hin|[[= <-]|[]]]; [|now split].
    specialize (Hw _ Hin). discriminate Hw.
  - exfalso. rewrite elem_of_app, elem_of_cons in Hin.
    destruct Hin as [Hin|[[=]|Hin]]; [|eauto].
    specialize (Hw _ Hin). discriminate Hw.
  - exfalso.
    rewrite elem_of_app, elem_of_cons, elem_of_app, elem_of_cons, elem_of_nil in Hin.
    destruct Hin as [Hin|[[=]|[Hin|[[=]|[]]]]]; [|eauto].
    specialize (Hw _ Hin). discriminate Hw.
Qed.

(** X13: when [main] returns, the font path names an existing file and the
    log is: the possible message about the configuration file, the login
    name asked, a complete staging by the packager built from the
    arguments, with the six lines [id], [name], [version], [versionCode],
    [author] and [description] written to [module.prop] in this order, the
    archive made under the name of the font in the temporary directory of
    the system, the staging directory removed, and last a copy next to the
    script; every call returned.  The author written is the name that
    [os.getlogin] returned in the world [main] started in; the packager ran
    from the world that call left, each of its calls in the world the call
    before it left; and what is copied next to the script, in the world the
    packager left, is the path that [make_archive] returned.  The name of
    the font is the [--font-name] argument when it is not empty, and
    otherwise the base name of the font path without its extension. *)
Theorem X13_main_returns (__file__ : string) (config : Namespace) (w : world) :
  outcome_of (main __file__ config) w = Return tt ->
  font_found config w = true
  /\ exists login temp root data tmp zip_file (w1 w2 : world) (d : string),
      trace_of (main __file__ config) w
      = main_warning __file__ config w
          ++ returned getlogin
          :: (returned <$> staging (main_packager __file__ config)
                             (main_module_props (main_font_name config) login)
                             temp data)
          ++ [ returned (make_archive (join tmp [main_font_name config]) "zip"
                           (join temp [basename (join (dirname __file__) ["template"])]));
               returned (cleanup temp);
               returned (copy zip_file (dirname __file__)) ]
      /\ dom_string_of (build_familyset (basename (font config)) root) = Return data
      /\ os_getlogin w = (Return login, w1)
      /\ package_module_returned (main_packager __file__ config)
                                 (main_module_props (main_font_name config) login)
                                 w1 temp root data tmp zip_file w2
      /\ shutil_copy zip_file (dirname __file__) w2
         = (Return d, st_world (snd (main __file__ config (mkState w [])))).
Proof.
  unfold trace_of, outcome_of.
  destruct (main __file__ config (mkState w [])) as [r s'] eqn:Hrun. cbn [fst snd].
  intros ->.
  apply main_returned_run in Hrun
    as (Hfont & login & temp & root & data & tmp & zip_file & w1 & w2 & d
          & Hlogin & Hpm & Hcopy & Ht).
  split; [exact Hfont|].
  exists login, temp, root, data, tmp, zip_file, w1, w2, d.
  split; [exact Ht|]. split; [|now repeat split].
  destruct Hpm as (? & ? & ? & ? & ? & ? & ? & ? & ? & ? & ? & ? & ? & ? & ? & Hpm).
  apply Hpm.
Qed.

End RunFacts.

(** X7 on a machine where every call returns. *)
Lemma X7_witness :
  let self := ModulePackager_init "/opt/mod/template" "/home/u/MyFont.ttf"
                                  "/home/u/base.xml" "MyFont" in
  let w := Mem.machine (Some (doc [family_sans; family_ja])) in
  exists temp root data tmp,
    trace_of (Lib := Mem.library) (package_module self [("id", "MyFont")]) w
    = (returned <$> staging self [("id", "MyFont")] temp data)
        ++ [ returned (make_archive (join tmp [font_name self]) "zip"
                                    (join temp [basename (template_path self)]));
             returned (cleanup temp) ]
    /\ dom_string_of (Lib := Mem.library)
                     (build_familyset (font_file_name self) root) = Return data
    /\ package_module_returned
         (Lib := Mem.library) self [("id", "MyFont")] w temp root data tmp
         "/tmp/MyFont.zip"
         (st_world (snd (package_module (Lib := Mem.library) self [("id", "MyFont")]
                                        (mkState (Lib := Mem.library) w [])))).
Proof.
  intros self w.
  apply (X7_returned_run (Lib := Mem.library) self [("id", "MyFont")] w
                         "/tmp/MyFont.zip").
  vm_compute. reflexivity.
Defined.

(** X8 on a machine where the font path names no file. *)
Lemma X8_witness :
  let self := ModulePackager_init "/opt/mod/template" "/home/u/Nope.ttf"
                                  "/home/u/base.xml" "Nope" in
  exists temp o,
    "/tmp/tmp0/template/system/fonts"
    = join (join temp [basename (template_path self)]) ["system"; "fonts"]
    /\ trace_of (Lib := Mem.library) (package_module self [])
                (Mem.machine (Some (doc [family_sans; family_ja])))
       = [ returned TemporaryDirectory;
           returned (copytree (template_path self)
                              (join temp [basename (template_path self)]));
           mkEvent (copy (font_path self) "/tmp/tmp0/template/system/fonts")
                   (Some (OSError "No such file or directory: /home/u/Nope.ttf"));
           mkEvent (cleanup temp) o ]
    /\ outcome_of (Lib := Mem.library) (package_module self [])
                  (Mem.machine (Some (doc [family_sans; family_ja])))
       = after o (Raise (OSError "No such file or directory: /home/u/Nope.ttf")).
Proof.
  intros self.
  apply (X8_font_copy_raises (Lib := Mem.library) self []
           (Mem.machine (Some (doc [family_sans; family_ja])))).
  vm_compute. do 2 right. left.
Defined.

(** X9 on a machine whose base document is malformed. *)
Lemma X9_witness :
  let self := ModulePackager_init "/opt/mod/template" "/home/u/MyFont.ttf"
                                  "/home/u/base.xml" "MyFont" in
  exists temp o1 o2,
    trace_of (Lib := Mem.library) (package_module self [("id", "MyFont")])
             (Mem.machine None)
    = returned TemporaryDirectory
        :: returned (copytree (template_path self)
                              (join temp [basename (template_path self)]))
        :: returned (copy (font_path self)
                          (join (join temp [basename (template_path self)])
                                ["system"; "fonts"]))
        :: returned (open (join (join temp [basename (template_path self)])
                                ["module.prop"]) "w+")
        :: prop_writes (join (join temp [basename (template_path self)])
                             ["module.prop"]) [("id", "MyFont")]
        ++ [ returned (close (join (join temp [basename (template_path self)])
                                   ["module.prop"]));
             returned (open (join (join temp [basename (template_path self)])
                                  ["system"; "etc"; "fonts.xml"]) "w+");
             mkEvent (parse (base_font_xml_path self)) (Some ParseError);
             mkEvent (close (join (join temp [basename (template_path self)])
                                  ["system"; "etc"; "fonts.xml"])) o1;
             mkEvent (cleanup temp) o2 ]
    /\ outcome_of (Lib := Mem.library) (package_module self [("id", "MyFont")])
                  (Mem.machine None)
       = after o2 (after o1 (Raise ParseError)).
Proof.
  intros self.
  apply (X9_parse_raises (Lib := Mem.library) self [("id", "MyFont")] (Mem.machine None)).
  vm_compute. do 7 right. left.
Defined.

(** X10 on a machine where the configuration file named on the command
    line does not exist and the font does. *)
Lemma X10_witness :
  exists o t,
    trace_of (Lib := Mem.library)
             (main "/opt/mod/package.py"
                   (mkNamespace (Some "/home/u/none.xml") "/home/u/MyFont.ttf" None))
             (Mem.machine None)
    = returned (print "Font config file not exists!") :: mkEvent getlogin o :: t
    /\ (o = None -> exists o', head t = Some (mkEvent TemporaryDirectory o')).
Proof.
  apply (X10_missing_font_config_is_reported (Lib := Mem.library) "/opt/mod/package.py"
           (mkNamespace (Some "/home/u/none.xml") "/home/u/MyFont.ttf" None)
           (Mem.machine None)); reflexivity.
Defined.


(** X12 on a machine without a controlling terminal. *)
Lemma X12_witness :
  outcome_of (Lib := Mem.library_no_tty)
             (main "/opt/mod/package.py" (mkNamespace None "/home/u/MyFont.ttf" None))
             (Mem.machine None)
  = Raise (OSError "Inappropriate ioctl for device")
  /\ trace_of (Lib := Mem.library_no_tty)
              (main "/opt/mod/package.py" (mkNamespace None "/home/u/MyFont.ttf" None))
              (Mem.machine None)
     = main_warning (Lib := Mem.library_no_tty) "/opt/mod/package.py"
                    (mkNamespace None "/home/u/MyFont.ttf" None) (Mem.machine None)
         ++ [mkEvent getlogin (Some (OSError "Inappropriate ioctl for device"))].
Proof.
  apply (X12_getlogin_raises (Lib := Mem.library_no_tty) "/opt/mod/package.py"
           (mkNamespace None "/home/u/MyFont.ttf" None) (Mem.machine None)).
  vm_compute. left.
Defined.

(** X13 on a machine where every call returns, without [--font-name]. *)
Lemma X13_witness :
  let config := mkNamespace (Some "/home/u/base.xml") "/home/u/MyFont.ttf" None in
  let w := Mem.machine (Some (doc [family_sans; family_ja])) in
  font_found (Lib := Mem.library) config w = true
  /\ exists login temp root data tmp zip_file (w1 w2 : world) (d : string),
      trace_of (Lib := Mem.library) (main "/opt/mod/package.py" config) w
      = main_warning (Lib := Mem.library) "/opt/mod/package.py" config w
          ++ returned getlogin
          :: (returned <$> staging (main_packager "/opt/mod/package.py" config)
                             (main_module_props (main_font_name config) login)
                             temp data)
          ++ [ returned (make_archive (join tmp [main_font_name config]) "zip"
                           (join temp [basename (join (dirname "/opt/mod/package.py")
                                                      ["template"])]));
               returned (cleanup temp);
               returned (copy zip_file (dirname "/opt/mod/package.py")) ]
      /\ dom_string_of (Lib := Mem.library)
                       (build_familyset (basename (font config)) root) = Return data
      /\ os_getlogin (Library := Mem.library) w = (Return login, w1)
      /\ package_module_returned
           (Lib := Mem.library) (main_packager "/opt/mod/package.py" config)
           (main_module_props (main_font_name config) login)
           w1 temp root data tmp zip_file w2
      /\ shutil_copy (Library := Mem.library) zip_file (dirname "/opt/mod/package.py") w2
         = (Return d, st_world (snd (main (Lib := Mem.library) "/opt/mod/package.py"
                                          config (mkState (Lib := Mem.library) w [])))).
Proof.
  intros config w.
  apply (X13_main_returns (Lib := Mem.library) "/opt/mod/package.py" config w).
  vm_compute. reflexivity.
Defined.

Section RunSafety.

Context {Lib : Library}.

(** a log in which, once a call has raised, only exit calls follow, and
    which then ends with an exception *)
Lemma stops_split (a post pre post' : list event) (ev ev' : event) :
  Forall (fun x => ev_raised x = None) a ->
  Forall (fun x => is_exit_call (ev_call x) = true) post ->
  a ++ ev :: post = pre ++ ev' :: post' ->
  ev_raised ev' <> None ->
  Forall (fun x => is_exit_call (ev_call x) = true) post'.
Proof.
  intros Ha Hpost. revert pre. induction a as [|x a IH]; intros pre Heq Hev.
  - destruct pre as [|p pre]; injection Heq as -> Heq.
    + now subst.
    + clear Hev. revert post Hpost Heq.
      induction pre as [|q pre IHp]; intros post Hpost Heq; subst post.
      * now inversion Hpost.
      * inversion Hpost; subst. now apply (IHp (pre ++ ev' :: post')).
  - inversion Ha as [|? ? Hx Ha']; subst.
    destruct pre as [|p pre]; injection Heq as -> Heq.
    + congruence.
    + now apply (IH Ha' pre).
Qed.

Lemma all_returned_split (t pre post : list event) (ev : event) :
  Forall (fun x => ev_raised x = None) t ->
  t = pre ++ ev :: post -> ev_raised ev <> None -> False.
Proof.
  intros Ht -> Hev. apply Forall_app in Ht as [_ Ht].
  inversion Ht; subst. congruence.
Qed.

Lemma prop_writes_returned (file : string) (l : dict) :
  Forall (fun x => ev_raised x = None) (prop_writes file l).
Proof. now apply Forall_prop_writes. Qed.

Lemma ff_raised {A} (a : list event) (c : call) (e : exn) :
  Forall (fun x => ev_raised x = None) a ->
  fails_fast (A := A) (Raise e) (a ++ [mkEvent c (Some e)]).
Proof. intros Ha. right. exists a, (mkEvent c (Some e)), [], e. now repeat split. Qed.

Lemma ff_cast {A B} (e : exn) (t : list event) :
  fails_fast (A := A) (Raise e) t -> fails_fast (A := B) (Raise e) t.
Proof.
  intros [H|(a & ev & post & e' & -> & Ha & Hp & _)]; [now left|].
  right. now exists a, ev, post, e.
Qed.

Lemma ff_prefix {A} (a0 t : list event) (r : result A) :
  Forall (fun x => ev_raised x = None) a0 -> fails_fast r t -> fails_fast r (a0 ++ t).
Proof.
  intros H0 [H|(a & ev & post & e & -> & Ha & Hp & ->)].
  - left. now apply Forall_app.
  - right. exists (a0 ++ a), ev, post, e. rewrite <- app_assoc.
    repeat split; trivial. now apply Forall_app.
Qed.

Lemma ff_exit {A} (t : list event) (r : result A) (c : call) (o : option exn) :
  is_exit_call c = true -> fails_fast r t -> fails_fast (after o r) (t ++ [mkEvent c o]).
Proof.
  intros Hc [H|(a & ev & post & e & -> & Ha & Hp & ->)].
  - destruct o as [e|].
    + right. exists t, (mkEvent c (Some e)), [], e. now repeat split.
    + left. apply Forall_app. split; [exact H|]. now repeat constructor.
  - right. exists a, ev, (post ++ [mkEvent c o]), (default e o).
    rewrite <- app_assoc. repeat split; trivial.
    + apply Forall_app. split; [exact Hp|]. now repeat constructor.
    + now destruct o.
Qed.

Lemma ff_call {A} (c : call) (r : result A) : fails_fast r [mkEvent c (raised r)].
Proof.
  destruct r as [x|e]; [left; now repeat constructor|].
  apply (ff_raised (A := A) [] c e). constructor.
Qed.

Lemma ff_module_prop (file : string) (kwargs : dict) (r : result unit) (t : list event) :
  module_prop_log file kwargs r t -> fails_fast r t.
Proof.
  intros [e|done rest kv e o _|o].
  - apply (ff_call (open file "w+") (Raise e)).
  - replace (returned (open file "w+")
               :: prop_writes file done
               ++ [mkEvent (write file (prop_line kv)) (Some e); mkEvent (close file) o])
      with (((returned (open file "w+") :: prop_writes file done)
               ++ [mkEvent (write file (prop_line kv)) (Some e)])
              ++ [mkEvent (close file) o])
      by (rewrite <- !app_assoc; reflexivity).
    apply ff_exit; [reflexivity|]. apply ff_raised.
    constructor; [reflexivity|apply prop_writes_returned].
  - apply (ff_exit (returned (open file "w+") :: prop_writes file kwargs));
      [reflexivity|].
    left. constructor; [reflexivity|apply prop_writes_returned].
Qed.

Lemma ff_fonts_xml (self : ModulePackager) (file : string) (r : result Z)
      (t : list event) :
  fonts_xml_log self file r t -> fails_fast r t.
Proof.
  intros [e|e o|root e o _|root data r' o _].
  - apply (ff_call (open file "w+") (Raise e)).
  - apply (ff_exit [returned (open file "w+");
                    mkEvent (parse (base_font_xml_path self)) (Some e)]);
      [reflexivity|].
    apply (ff_raised [returned (open file "w+")]). now repeat constructor.
  - apply (ff_exit [returned (open file "w+");
                    returned (parse (base_font_xml_path self))]); [reflexivity|].
    left. now repeat constructor.
  - apply (ff_exit [returned (open file "w+");
                    returned (parse (base_font_xml_path self));
                    mkEvent (write file data) (raised r')]); [reflexivity|].
    apply (ff_prefix [returned (open file "w+");
                      returned (parse (base_font_xml_path self))]);
      [now repeat constructor|apply ff_call].
Qed.

Lemma ff_archive (self : ModulePackager) (temp : string) (r : result string)
      (t : list event) :
  archive_log self temp r t -> fails_fast r t.
Proof.
  intros [e|tmp r'].
  - apply (ff_call gettempdir (Raise e)).
  - apply (ff_prefix [returned gettempdir]); [now repeat constructor|apply ff_call].
Qed.

Lemma module_prop_log_all_returned (file : string) (kwargs : dict) (t : list event) :
  module_prop_log file kwargs (Return tt) t -> Forall (fun x => ev_raised x = None) t.
Proof.
  intros ->%module_prop_log_returned. constructor; [reflexivity|].
  apply Forall_app. split; [apply prop_writes_returned|now repeat constructor].
Qed.

Lemma fonts_xml_log_all_returned (self : ModulePackager) (file : string) (n : Z)
      (t : list event) :
  fonts_xml_log self file (Return n) t -> Forall (fun x => ev_raised x = None) t.
Proof.
  intros (root & data & _ & ->)%fonts_xml_log_returned. now repeat constructor.
Qed.

Lemma ff_body (self : ModulePackager) (kwargs : dict) (temp : string)
      (r : result string) (t : list event) :
  body_log self kwargs temp r t -> fails_fast r t.
Proof.
  intros [e|e|e t1 L1|e t1 t2 L1 L2|n r' t1 t2 t3 L1 L2 L3].
  - apply (ff_call _ (Raise e)).
  - apply (ff_prefix [_]); [now repeat constructor|]. apply (ff_call _ (Raise e)).
  - apply (ff_prefix [_; _]); [now repeat constructor|].
    apply (ff_cast (A := unit)). now apply ff_module_prop in L1.
  - apply (ff_prefix [_; _]); [now repeat constructor|].
    apply ff_prefix; [now apply module_prop_log_all_returned in L1|].
    apply (ff_cast (A := Z)). now apply ff_fonts_xml in L2.
  - apply (ff_prefix [_; _]); [now repeat constructor|].
    apply ff_prefix; [now apply module_prop_log_all_returned in L1|].
    apply ff_prefix; [now apply fonts_xml_log_all_returned in L2|].
    now apply ff_archive in L3.
Qed.

Lemma ff_package_module (self : ModulePackager) (kwargs : dict) (r : result string)
      (t : list event) :
  package_module_log self kwargs r t -> fails_fast r t.
Proof.
  intros [e|temp rb tb o Hb].
  - apply (ff_call _ (Raise e)).
  - apply (ff_exit (returned TemporaryDirectory :: tb)); [reflexivity|].
    apply (ff_prefix [_]); [now repeat constructor|]. now apply ff_body in Hb.
Qed.

(** X14: [package_module] stops at the first call that raises: whatever
    call it is, the only calls after it are the close of the file that is
    open, if one is, and the removal of the staging directory, and the
    method ends with an exception. *)
Theorem X14_stops_at_first_exception (self : ModulePackager) (kwargs : dict) (w : world)
        (pre post : list event) (ev : event) :
  trace_of (package_module self kwargs) w = pre ++ ev :: post ->
  ev_raised ev <> None ->
  Forall (fun x => is_exit_call (ev_call x) = true) post
  /\ exists e, outcome_of (package_module self kwargs) w = Raise e.
Proof.
  unfold trace_of, outcome_of.
  destruct (package_module self kwargs (mkState w [])) as [r s'] eqn:Hrun. cbn [fst snd].
  apply package_module_runs in Hrun as (t & -> & Hlog). cbn [st_trace app].
  intros Heq Hev.
  apply ff_package_module in Hlog as [H|(a & ev0 & post0 & e & -> & Ha & Hp & ->)].
  - destruct (all_returned_split _ _ _ _ H Heq Hev).
  - split; [|now exists e]. exact (stops_split _ _ _ _ _ _ Ha Hp Heq Hev).
Qed.

Lemma prop_writes_entries (file : string) (l : dict) :
  Forall (fun ev => exists kv, kv ∈ l /\ ev_call ev = write file (prop_line kv))
         (prop_writes file l).
Proof.
  unfold prop_writes. induction l as [|kv l IH]; constructor.
  - exists kv. split; [left|reflexivity].
  - eapply Forall_impl; [exact IH|]. cbn beta. intros ev (kv' & Hin & Hc).
    exists kv'. split; [now right|exact Hc].
Qed.

Lemma staged_module_prop (self : ModulePackager) (kwargs : dict) (temp : string)
      (r : result unit) (t : list event) :
  module_prop_log (join (join temp [basename (template_path self)]) ["module.prop"])
                  kwargs r t ->
  Forall (fun ev => staged_call self kwargs temp (ev_call ev)) t.
Proof.
  assert (Hw : forall l, (forall kv, kv ∈ l -> kv ∈ kwargs) ->
                Forall (fun ev => staged_call self kwargs temp (ev_call ev))
                       (prop_writes
                          (join (join temp [basename (template_path self)])
                                ["module.prop"]) l)).
  { intros l Hl. eapply Forall_impl; [apply prop_writes_entries|]. cbn beta.
    intros ev (kv & Hin & ->). left. split; [reflexivity|]. exists kv. auto. }
  intros [e|done rest kv e o Hk|o].
  - constructor; [split; [now left|reflexivity]|constructor].
  - constructor; [split; [now left|reflexivity]|]. apply Forall_app. split.
    + apply Hw. intros kv' Hin. rewrite Hk. apply elem_of_app. now left.
    + constructor; [|constructor; [now left|constructor]].
      left. split; [reflexivity|]. exists kv. split; [|reflexivity].
      rewrite Hk. apply elem_of_app. right. left.
  - constructor; [split; [now left|reflexivity]|]. apply Forall_app. split.
    + now apply Hw.
    + constructor; [now left|constructor].
Qed.

Lemma staged_fonts_xml (self : ModulePackager) (kwargs : dict) (temp : string)
      (r : result Z) (t : list event) :
  fonts_xml_log self (join (join temp [basename (template_path self)])
                           ["system"; "etc"; "fonts.xml"]) r t ->
  Forall (fun ev => staged_call self kwargs temp (ev_call ev)) t.
Proof.
  intros [];
    repeat (apply List.Forall_cons;
            [first [ reflexivity
                   | split; [now right|reflexivity]
                   | now right ]|]);
    apply List.Forall_nil.
Qed.

Lemma staged_body (self : ModulePackager) (kwargs : dict) (temp : string)
      (r : result string) (t : list event) :
  body_log self kwargs temp r t ->
  Forall (fun ev => staged_call self kwargs temp (ev_call ev)) t.
Proof.
  intros [e|e|e t1 L1|e t1 t2 L1 L2|n r' t1 t2 t3 L1 L2 L3].
  - repeat constructor.
  - repeat constructor.
  - do 2 (constructor; [now split|]). now apply staged_module_prop in L1.
  - do 2 (constructor; [now split|]). apply Forall_app. split.
    + now apply staged_module_prop in L1.
    + now apply (staged_fonts_xml self kwargs) in L2.
  - do 2 (constructor; [now split|]). apply Forall_app. split.
    + now apply staged_module_prop in L1.
    + apply Forall_app. split; [now apply (staged_fonts_xml self kwargs) in L2|].
      destruct L3 as [e|tmp r'']; repeat constructor. now exists tmp.
Qed.

(** X15: every call of [package_module] is one of these, for one staging
    directory: its creation and its removal; the copy of the template into
    it and of the font into its [system/fonts]; an opening for writing, a
    write or a close of its [module.prop] or of its [system/etc/fonts.xml],
    each write to [module.prop] being the line of an entry of the metadata;
    the parse of the base document; the question of the temporary directory
    of the system; the archive of the staging tree, in zip format, under
    the name of the font.  So no file outside the staging directory is
    opened or written, and nothing is printed. *)
Theorem X15_calls_are_staged (self : ModulePackager) (kwargs : dict) (w : world) :
  exists temp,
    Forall (fun ev => staged_call self kwargs temp (ev_call ev))
           (trace_of (package_module self kwargs) w).
Proof.
  unfold trace_of.
  destruct (package_module self kwargs (mkState w [])) as [r s'] eqn:Hrun. cbn [snd].
  apply package_module_runs in Hrun as (t & -> & Hlog). cbn [st_trace app].
  destruct Hlog as [e|temp rb tb o Hb].
  - exists EmptyString. repeat constructor.
  - exists temp. constructor; [exact I|]. apply Forall_app. split.
    + now apply staged_body in Hb.
    + repeat constructor.
Qed.

End RunSafety.

(** X14 on a machine whose base document is malformed: after the parse,
    the close and the removal. *)
Lemma X14_witness :
  Forall (fun x => is_exit_call (ev_call x) = true)
         [ returned (close "/tmp/tmp0/template/system/etc/fonts.xml");
           returned (cleanup "/tmp/tmp0") ]
  /\ exists e,
      outcome_of (Lib := Mem.library)
                 (package_module
                    (ModulePackager_init "/opt/mod/template" "/home/u/MyFont.ttf"
                                         "/home/u/base.xml" "MyFont") [])
                 (Mem.machine None) = Raise e.
Proof.
  apply (X14_stops_at_first_exception (Lib := Mem.library)
           (ModulePackager_init "/opt/mod/template" "/home/u/MyFont.ttf"
                                "/home/u/base.xml" "MyFont") [] (Mem.machine None)
           [ returned TemporaryDirectory;
             returned (copytree "/opt/mod/template" "/tmp/tmp0/template");
             returned (copy "/home/u/MyFont.ttf" "/tmp/tmp0/template/system/fonts");
             returned (open "/tmp/tmp0/template/module.prop" "w+");
             returned (close "/tmp/tmp0/template/module.prop");
             returned (open "/tmp/tmp0/template/system/etc/fonts.xml" "w+") ]
           [ returned (close "/tmp/tmp0/template/system/etc/fonts.xml");
             returned (cleanup "/tmp/tmp0") ]
           (mkEvent (parse "/home/u/base.xml") (Some ParseError))).
  - vm_compute. reflexivity.
  - discriminate.
Defined.
